(** * ar_file: the header codec of [ArInfo]

    A shallow embedding of [src/ar_file.py]: the [ArInfo] record, its
    [tobuf] encoder (GNU and BSD name conventions) and its [frombuf]
    decoder, together with the pieces of the Python runtime the two
    functions lean on (text slicing, [rstrip], [ljust], [int(text, base)],
    the [d] and [o] format types, and the strict UTF-8 codec).

    Conventions.
    - A Python [str] is a list of code points ([N]); a [bytes] object is a
      list of [Byte.byte].
    - A Python [int] is a [Z].
    - Integer/text conversions follow CPython's algorithm without the
      optional digit-count limit of the interpreter. *)

From Stdlib Require Import Strings.String Strings.Ascii Strings.Byte.
From Stdlib Require Import ZArith NArith List Bool Lia.
Import ListNotations.

Local Open Scope Z_scope.

(** ** Python text *)

Module PyText.

Definition char := N.
Definition pystr := list char.

(** A Rocq string literal read as Python text (one code point per
    character of the literal). *)
Definition str (s : string) : pystr :=
  List.map N_of_ascii (list_ascii_of_string s).
Arguments str s%_string.

Definition SPACE : char := 32%N.
Definition SLASH : char := 47%N.
Definition MINUS : char := 45%N.
Definition PLUS : char := 43%N.
Definition UNDERSCORE : char := 95%N.
Definition ZERO : char := 48%N.
Definition QUESTION : char := 63%N.

Fixpoint pystr_eqb (a b : pystr) : bool :=
  match a, b with
  | [], [] => true
  | x :: a', y :: b' => N.eqb x y && pystr_eqb a' b'
  | _, _ => false
  end.

(** [str.isspace] on one code point (the characters [rstrip()] removes). *)
Definition isspace (c : char) : bool :=
  ((9 <=? c) && (c <=? 13) || (28 <=? c) && (c <=? 32)
   || (c =? 133) || (c =? 160) || (c =? 5760)
   || (8192 <=? c) && (c <=? 8202)
   || (c =? 8232) || (c =? 8233) || (c =? 8239) || (c =? 8287)
   || (c =? 12288))%N.

Fixpoint lstrip (s : pystr) : pystr :=
  match s with
  | c :: r => if isspace c then lstrip r else s
  | [] => []
  end.

(** [s.rstrip()] *)
Definition rstrip (s : pystr) : pystr := rev (lstrip (rev s)).

(** [s.startswith(p)] *)
Fixpoint startswith (p s : pystr) : bool :=
  match p, s with
  | [], _ => true
  | x :: p', y :: s' => N.eqb x y && startswith p' s'
  | _ :: _, [] => false
  end.

(** [s.ljust(w)]: pads on the right with spaces, never truncates. *)
Definition ljust (w : nat) (s : pystr) : pystr :=
  s ++ repeat SPACE (w - length s).

(** [s[start:stop]] with Python's treatment of negative and
    out-of-range bounds. *)
Definition clamp_index {A} (s : list A) (i : Z) : nat :=
  let n := Z.of_nat (length s) in
  let i := if i <? 0 then i + n else i in
  Z.to_nat (Z.min n (Z.max 0 i)).

Definition slice {A} (s : list A) (start stop : Z) : list A :=
  let a := clamp_index s start in
  let b := clamp_index s stop in
  firstn (b - a) (skipn a s).

(** [s[start:]] *)
Definition slice_from {A} (s : list A) (start : Z) : list A :=
  skipn (clamp_index s start) s.

(** *** Rendering integers: [str(n)], [format(n, 'd')], [format(n, 'o')] *)

Definition digit_char (d : N) : char :=
  (if d <? 10 then 48 + d else 87 + d)%N.

Fixpoint digits_fuel (fuel : nat) (base n : N) (acc : pystr) : pystr :=
  match fuel with
  | O => acc
  | S f =>
      let acc' := digit_char (n mod base) :: acc in
      if (n / base =? 0)%N then acc' else digits_fuel f base (n / base) acc'
  end.

(** The digits of [n] in [base], most significant first. *)
Definition to_base (base n : N) : pystr :=
  digits_fuel (S (N.to_nat (N.size n))) base n [].

Definition int_to_base (base : N) (z : Z) : pystr :=
  if z <? 0 then MINUS :: to_base base (Z.abs_N z)
  else to_base base (Z.to_N z).

(** [str(z)], for an integer of at most 4300 decimal digits: beyond
    that the interpreter, at its default setting, raises [ValueError]
    where this function still gives the digits. *)
Definition int_str (z : Z) : pystr := int_to_base 10 z.

(** ['{:<wd}'.format(z)], for an integer of at most 4300 decimal
    digits (see [int_str]). *)
Definition format_d (w : nat) (z : Z) : pystr := ljust w (int_to_base 10 z).

(** ['{:<wo}'.format(z)] *)
Definition format_o (w : nat) (z : Z) : pystr := ljust w (int_to_base 8 z).

(** *** Reading integers: [int(text, base)] for an explicit base in 2..36 *)

(** Zero characters of the decimal-digit runs of the Unicode database
    (category Nd, Unicode 14): each run is ten consecutive code points. *)
Definition decimal_zeros : list N :=
  [0x30; 0x660; 0x6f0; 0x7c0; 0x966; 0x9e6; 0xa66; 0xae6; 0xb66; 0xbe6;
   0xc66; 0xce6; 0xd66; 0xde6; 0xe50; 0xed0; 0xf20; 0x1040; 0x1090; 0x17e0;
   0x1810; 0x1946; 0x19d0; 0x1a80; 0x1a90; 0x1b50; 0x1bb0; 0x1c40; 0x1c50;
   0xa620; 0xa8d0; 0xa900; 0xa9d0; 0xa9f0; 0xaa50; 0xabf0; 0xff10; 0x104a0;
   0x10d30; 0x11066; 0x110f0; 0x11136; 0x111d0; 0x112f0; 0x11450; 0x114d0;
   0x11650; 0x116c0; 0x11730; 0x118e0; 0x11950; 0x11c50; 0x11d50; 0x11da0;
   0x16a60; 0x16ac0; 0x16b50; 0x1d7ce; 0x1d7d8; 0x1d7e2; 0x1d7ec; 0x1d7f6;
   0x1e140; 0x1e2f0; 0x1e950; 0x1fbf0]%N.

Definition to_decimal (c : char) : option N :=
  match find (fun z => (z <=? c) && (c <? z + 10))%N decimal_zeros with
  | Some z => Some (c - z)%N
  | None => None
  end.

(** What [int] does to each character before parsing: Unicode spaces
    become a blank, Unicode decimal digits their ASCII digit, any other
    character beyond ASCII a question mark. *)
Definition to_ascii_digit_or_space (c : char) : char :=
  if (c <? 127)%N then c
  else if isspace c then SPACE
  else match to_decimal c with
       | Some d => (48 + d)%N
       | None => QUESTION
       end.

(** The C locale's [isspace], used around the digits. *)
Definition is_c_space (c : char) : bool :=
  ((c =? 32) || (9 <=? c) && (c <=? 13))%N.

Fixpoint skip_c_space (s : pystr) : pystr :=
  match s with
  | c :: r => if is_c_space c then skip_c_space r else s
  | [] => []
  end.

Definition digit_value (c : char) : N :=
  (if (48 <=? c) && (c <=? 57) then c - 48
   else if (97 <=? c) && (c <=? 122) then c - 87
   else if (65 <=? c) && (c <=? 90) then c - 55
   else 37)%N.

(** A character that is a decimal digit and a digit of [base]. *)
Definition digit_of (base : N) (c : char) : Prop := (48 <= c < 48 + base)%N.

(** The number that a run of digits denotes in [base], read after the
    number [a]. *)
Definition digits_value (base : N) (ds : pystr) (a : N) : N :=
  fold_left (fun a c => a * base + digit_value c)%N ds a.

(** The digit loop: digits of the base with single underscores between
    them.  [prev_us] records that the previous character was an
    underscore.  Returns the value read and the unread rest. *)
Fixpoint scan_digits (base : N) (s : pystr) (prev_us : bool) (acc : N)
  : option (N * pystr) :=
  match s with
  | c :: r =>
      if (c =? UNDERSCORE)%N then
        if prev_us then None else scan_digits base r true acc
      else if (digit_value c <? base)%N then
        scan_digits base r false (acc * base + digit_value c)%N
      else if prev_us then None else Some (acc, s)
  | [] => if prev_us then None else Some (acc, [])
  end.

Definition base_prefix (base : N) (c : char) : bool :=
  ((base =? 16) && ((c =? 120) || (c =? 88))
   || (base =? 8) && ((c =? 111) || (c =? 79))
   || (base =? 2) && ((c =? 98) || (c =? 66)))%N.

Definition strip_sign (s : pystr) : bool * pystr :=
  match s with
  | c :: r => if (c =? PLUS)%N then (false, r)
              else if (c =? MINUS)%N then (true, r)
              else (false, s)
  | [] => (false, [])
  end.

Definition strip_base_prefix (base : N) (s : pystr) : pystr :=
  match s with
  | z :: c :: r =>
      if (z =? ZERO)%N && base_prefix base c then
        match r with
        | u :: r' => if (u =? UNDERSCORE)%N then r' else r
        | [] => r
        end
      else s
  | _ => s
  end.

(** [int(text, base)]; [None] stands for [ValueError]. *)
Definition py_int (text : pystr) (base : N) : option Z :=
  let s := skip_c_space (List.map to_ascii_digit_or_space text) in
  let '(neg, s) := strip_sign s in
  let s := strip_base_prefix base s in
  match s with
  | c :: _ =>
      if (digit_value c <? base)%N then
        match scan_digits base s false 0%N with
        | Some (v, rest) =>
            match skip_c_space rest with
            | [] => Some (if neg then - Z.of_N v else Z.of_N v)
            | _ :: _ => None
            end
        | None => None
        end
      else None
  | [] => None
  end.

End PyText.

(** ** The strict UTF-8 codec *)

Module Utf8.
Import PyText.

Definition byte_of_N (n : N) : byte :=
  match Byte.of_N n with
  | Some b => b
  | None => x00
  end.

Definition encode_char (c : char) : option (list byte) :=
  (if c <? 0x80 then Some [byte_of_N c]
   else if c <? 0x800 then
     Some [byte_of_N (0xC0 + c / 64); byte_of_N (0x80 + c mod 64)]
   else if c <? 0x10000 then
     if (0xD800 <=? c) && (c <=? 0xDFFF) then None
     else Some [byte_of_N (0xE0 + c / 4096);
                byte_of_N (0x80 + (c / 64) mod 64);
                byte_of_N (0x80 + c mod 64)]
   else if c <? 0x110000 then
     Some [byte_of_N (0xF0 + c / 262144);
           byte_of_N (0x80 + (c / 4096) mod 64);
           byte_of_N (0x80 + (c / 64) mod 64);
           byte_of_N (0x80 + c mod 64)]
   else None)%N.

(** [text.encode('utf-8', 'strict')]; [None] stands for
    [UnicodeEncodeError]. *)
Fixpoint encode (s : pystr) : option (list byte) :=
  match s with
  | [] => Some []
  | c :: r =>
      match encode_char c, encode r with
      | Some bs, Some rest => Some (bs ++ rest)
      | _, _ => None
      end
  end.

Definition is_cont (b : byte) : bool :=
  let n := Byte.to_N b in ((0x80 <=? n) && (n <? 0xC0))%N.

Definition cont_bits (b : byte) : N := (Byte.to_N b mod 64)%N.

(** [data.decode('utf-8', 'strict')]; [None] stands for
    [UnicodeDecodeError].  Overlong forms, surrogates and values beyond
    U+10FFFF are rejected. *)
Fixpoint decode (bs : list byte) : option pystr :=
  match bs with
  | [] => Some []
  | b0 :: r0 =>
      let n0 := Byte.to_N b0 in
      if (n0 <? 0x80)%N then option_map (cons n0) (decode r0)
      else
        match r0 with
        | [] => None
        | b1 :: r1 =>
            if negb (is_cont b1) then None
            else if ((0xC0 <=? n0) && (n0 <? 0xE0))%N then
              let c := ((n0 - 0xC0) * 64 + cont_bits b1)%N in
              if (c <? 0x80)%N then None
              else option_map (cons c) (decode r1)
            else
              match r1 with
              | [] => None
              | b2 :: r2 =>
                  if negb (is_cont b2) then None
                  else if ((0xE0 <=? n0) && (n0 <? 0xF0))%N then
                    let c := ((n0 - 0xE0) * 4096 + cont_bits b1 * 64
                              + cont_bits b2)%N in
                    if ((c <? 0x800) || (0xD800 <=? c) && (c <=? 0xDFFF))%N
                    then None
                    else option_map (cons c) (decode r2)
                  else
                    match r2 with
                    | [] => None
                    | b3 :: r3 =>
                        if negb (is_cont b3) then None
                        else if ((0xF0 <=? n0) && (n0 <? 0xF8))%N then
                          let c := ((n0 - 0xF0) * 262144
                                    + cont_bits b1 * 4096
                                    + cont_bits b2 * 64 + cont_bits b3)%N in
                          if ((c <? 0x10000) || (0x110000 <=? c))%N then None
                          else option_map (cons c) (decode r3)
                        else None
                    end
              end
        end
  end.

End Utf8.

(** ** The module [ar_file] *)

Module ArFile.
Import PyText.

(** *** Constants *)

Definition GNU_FORMAT : Z := 1.
Definition BSD_FORMAT : Z := 2.
Definition DEFAULT_FORMAT : Z := GNU_FORMAT.

(** A text encoding together with its error policy: what
    [bytes.decode(encoding, errors)] and [str.encode(encoding, errors)]
    do, [None] standing for the codec's own exception. *)
Record codec := {
  codec_decode : list byte -> option pystr;
  codec_encode : pystr -> option (list byte)
}.

(** The defaults [encoding='utf-8'], [errors='strict']. *)
Definition ENCODING : codec :=
  {| codec_decode := Utf8.decode; codec_encode := Utf8.encode |}.

(** *** Exceptions *)

(** The messages of [HeaderError], one constructor per [raise] site of
    [frombuf]. *)
Inductive header_error :=
| InvalidBufType
| BufTooShort
| InvalidNumericField (value : pystr) (field : string)
| InvalidTerminator
| InvalidFilename (name : pystr)
| NeedArFile (name : pystr).

(** The messages of [EncodingError]. *)
Inductive encoding_error :=
| UnableToSaveExtendedFilename
| InvalidFormat (format : Z).

Inductive exn :=
| HeaderError (e : header_error)
| EncodingError (e : encoding_error)
| UnicodeDecodeError
| UnicodeEncodeError
| AttributeError (attr : string)
| ContainerError (msg : string).

(** The outcome of a call: a returned value or a raised exception. *)
Inductive result (A : Type) :=
| Return (a : A)
| Raise (e : exn).
Arguments Return {A} a.
Arguments Raise {A} e.

Definition bind {A B} (m : result A) (k : A -> result B) : result B :=
  match m with
  | Return a => k a
  | Raise e => Raise e
  end.

Notation "x <- m ;; k" := (bind m (fun x => k))
  (at level 61, m at next level, right associativity).

(** *** The container interface

    [ArFile] is left unimplemented in the source; [ArInfo] only calls two
    methods on whatever object stands as its parent. *)
Class ArFileLike (C : Type) := {
  (** [arfile.read_filename(offset)] *)
  read_filename : C -> Z -> result pystr;
  (** [arfile.save_filename(name)]: the offset returned (or the exception
      raised) and the container afterwards. *)
  save_filename : C -> pystr -> result Z * C
}.

Section Info.

Context {C : Type} `{ArFileLike C}.

(** *** [class ArInfo] *)

(** [_inline_filename] is an attribute that [__init__] does not create:
    it exists only once [frombuf] has assigned it. *)
Record ArInfo := mkArInfo {
  name : pystr;
  mtime : Z;
  uid : Z;
  gid : Z;
  mode : Z;
  size : Z;
  _stream_fd : option Z;
  _stream_offs : Z;
  _parent : option C;
  _inline_name : bool;
  _inline_filename : option bool
}.

(** [ArInfo.__init__(self, name='')] *)
Definition __init__ (name : pystr) : ArInfo :=
  {| name := name;
     mtime := 0;
     uid := 0;
     gid := 0;
     mode := 420 (* 0o000644 *);
     size := 0;
     _stream_fd := None;
     _stream_offs := 0;
     _parent := None;
     _inline_name := false;
     _inline_filename := None |}.

Definition set_name (i : ArInfo) (v : pystr) : ArInfo :=
  mkArInfo v (mtime i) (uid i) (gid i) (mode i) (size i) (_stream_fd i)
           (_stream_offs i) (_parent i) (_inline_name i) (_inline_filename i).
Definition set_mtime (i : ArInfo) (v : Z) : ArInfo :=
  mkArInfo (name i) v (uid i) (gid i) (mode i) (size i) (_stream_fd i)
           (_stream_offs i) (_parent i) (_inline_name i) (_inline_filename i).
Definition set_uid (i : ArInfo) (v : Z) : ArInfo :=
  mkArInfo (name i) (mtime i) v (gid i) (mode i) (size i) (_stream_fd i)
           (_stream_offs i) (_parent i) (_inline_name i) (_inline_filename i).
Definition set_gid (i : ArInfo) (v : Z) : ArInfo :=
  mkArInfo (name i) (mtime i) (uid i) v (mode i) (size i) (_stream_fd i)
           (_stream_offs i) (_parent i) (_inline_name i) (_inline_filename i).
Definition set_mode (i : ArInfo) (v : Z) : ArInfo :=
  mkArInfo (name i) (mtime i) (uid i) (gid i) v (size i) (_stream_fd i)
           (_stream_offs i) (_parent i) (_inline_name i) (_inline_filename i).
Definition set_size (i : ArInfo) (v : Z) : ArInfo :=
  mkArInfo (name i) (mtime i) (uid i) (gid i) (mode i) v (_stream_fd i)
           (_stream_offs i) (_parent i) (_inline_name i) (_inline_filename i).
Definition set_parent (i : ArInfo) (v : option C) : ArInfo :=
  mkArInfo (name i) (mtime i) (uid i) (gid i) (mode i) (size i) (_stream_fd i)
           (_stream_offs i) v (_inline_name i) (_inline_filename i).
Definition set_inline_name (i : ArInfo) (v : bool) : ArInfo :=
  mkArInfo (name i) (mtime i) (uid i) (gid i) (mode i) (size i) (_stream_fd i)
           (_stream_offs i) (_parent i) v (_inline_filename i).
Definition set_inline_filename (i : ArInfo) (v : bool) : ArInfo :=
  mkArInfo (name i) (mtime i) (uid i) (gid i) (mode i) (size i) (_stream_fd i)
           (_stream_offs i) (_parent i) (_inline_name i) (Some v).

(** Reading [info_obj._inline_filename]. *)
Definition get_inline_filename (i : ArInfo) : result bool :=
  match _inline_filename i with
  | Some b => Return b
  | None => Raise (AttributeError "_inline_filename")
  end.

(** The Python objects that the two methods take or give back. *)
Inductive value :=
| VNone
| VBytes (b : list byte)
| VStr (s : pystr)
| VInt (z : Z)
| VArInfo (i : ArInfo)
| VException (e : exn).

(** The two characters ['\x60\x0a'] that close a header. *)
Definition TERMINATOR : pystr := [96; 10]%N.

(** [text.encode(encoding, errors)] *)
Definition encode_text (encoding : codec) (text : pystr) : result value :=
  match codec_encode encoding text with
  | Some b => Return (VBytes b)
  | None => Raise UnicodeEncodeError
  end.

(** [buf.decode(encoding, errors)] *)
Definition decode_bytes (encoding : codec) (b : list byte) : result pystr :=
  match codec_decode encoding b with
  | Some s => Return s
  | None => Raise UnicodeDecodeError
  end.

(** *** Encoding: [tobuf] and its helpers *)

Definition _append_common_data (self : ArInfo) : pystr :=
  let text := [] in
  (* Insert file modification timestamp *)
  let text := text ++ format_d 12 (mtime self) in
  (* Insert UID & GID *)
  let text := text ++ format_d 6 (uid self) in
  let text := text ++ format_d 6 (gid self) in
  (* Insert file mode *)
  let text := text ++ format_o 8 (mode self) in
  (* Insert file size *)
  let text := text ++ format_d 10 (size self) in
  (* Insert ending characters *)
  let text := text ++ TERMINATOR in
  text.

(** The methods below may assign attributes of [self] and call
    [save_filename] on its parent: they give back their outcome together
    with [self] as it is afterwards (the parent inside it). *)

Definition _create_bsd_format (self : ArInfo) (encoding : codec)
  : result value * ArInfo :=
  let '(text, self) :=
    if (length (name self) <=? 16)%nat then
      (ljust 16 (name self), self)
    else
      (ljust 16 (str "#1/" ++ int_str (Z.of_nat (length (name self)))),
       set_inline_name self true) in
  let text := text ++ _append_common_data self in
  (encode_text encoding text, self).

Definition _create_gnu_format (self : ArInfo) (encoding : codec)
  : result value * ArInfo :=
  if (length (name self) <=? 15)%nat then
    let text := ljust 16 (name self ++ [SLASH]) in
    let text := text ++ _append_common_data self in
    (encode_text encoding text, self)
  else
    match _parent self with
    | None => (Raise (EncodingError UnableToSaveExtendedFilename), self)
    | Some parent =>
        match save_filename parent (name self) with
        | (Raise e, parent') => (Raise e, set_parent self (Some parent'))
        | (Return offset, parent') =>
            let self := set_parent self (Some parent') in
            let text := ljust 16 (SLASH :: int_str offset) in
            let text := text ++ _append_common_data self in
            (encode_text encoding text, self)
        end
    end.

Definition tobuf (self : ArInfo) (format : Z) (encoding : codec)
  : result value * ArInfo :=
  if format =? BSD_FORMAT then _create_bsd_format self encoding
  else if format =? GNU_FORMAT then _create_gnu_format self encoding
  else (Return (VException (EncodingError (InvalidFormat format))), self).

(** *** Decoding: [frombuf] *)

(** The nested helper [parse_int(field, value, base)]. *)
Definition parse_int (field : string) (value : pystr) (base : N) : result Z :=
  match py_int value base with
  | Some z => Return z
  | None => Raise (HeaderError (InvalidNumericField value field))
  end.

(** The body of [frombuf] up to its last statement: the outcome is the
    local [info_obj] as the body leaves it. *)
Definition frombuf_info_obj (buf : value) (arfile : option C)
    (encoding : codec) : result ArInfo :=
  match buf with
  | VBytes buf =>
      buf <- decode_bytes encoding buf ;;
      (* Verify that the length is at least 60 bytes *)
      if (length buf <? 60)%nat then Raise (HeaderError BufTooShort) else
      let name := rstrip (slice buf 0 16) in
      mtime <- parse_int "mtime" (slice buf 16 28) 10 ;;
      uid <- parse_int "uid" (slice buf 28 34) 10 ;;
      gid <- parse_int "gid" (slice buf 34 40) 10 ;;
      mode <- parse_int "file mode" (slice buf 40 48) 8 ;;
      size <- parse_int "size" (slice buf 48 58) 8 ;;
      if negb (pystr_eqb (slice buf 58 60) TERMINATOR) then
        Raise (HeaderError InvalidTerminator)
      else
      let info_obj := __init__ name in
      let info_obj := set_mtime info_obj mtime in
      let info_obj := set_uid info_obj uid in
      let info_obj := set_gid info_obj gid in
      let info_obj := set_mode info_obj mode in
      let info_obj := set_size info_obj size in
      (* Set the pointer to the parent ArFile *)
      let info_obj := set_parent info_obj arfile in
      (* Parse the filename format *)
      let special := startswith (str "/") name || startswith (str "#1/") name in
      let info_obj :=
        if special then
          set_inline_filename info_obj (startswith (str "#1/") name)
        else info_obj in
      bsd <- (if special then get_inline_filename info_obj
              else Return false) ;;
      info_obj <-
        (if bsd then
           (* BSD Format *)
           match py_int (slice_from name 3) 10 with
           | None => Raise (HeaderError (InvalidFilename name))
           | Some length' =>
               if Z.of_nat (length buf) >=? 60 + length' then
                 (* We have enough data to get the filename *)
                 Return (set_name info_obj (slice buf 60 (60 + length')))
               else Return info_obj
           end
         else Return info_obj) ;;
      gnu <- (if special then b <- get_inline_filename info_obj ;;
                              Return (negb b)
              else Return false) ;;
      if gnu then
        (* GNU Format *)
        match py_int (slice_from name 1) 10 with
        | None => Raise (HeaderError (InvalidFilename name))
        | Some offset =>
            match arfile with
            | None => Raise (HeaderError (NeedArFile name))
            | Some a =>
                (* Get the filename from the ArFile object *)
                fname <- read_filename a offset ;;
                Return (set_name info_obj fname)
            end
        end
      else Return info_obj
  | _ => Raise (HeaderError InvalidBufType)
  end.

(** [ArInfo.frombuf(buf, arfile, encoding, errors)]: the body has no
    [return] statement, so a call that raises nothing evaluates to
    [None]. *)
Definition frombuf (buf : value) (arfile : option C) (encoding : codec)
  : result value :=
  _ <- frombuf_info_obj buf arfile encoding ;;
  Return VNone.

End Info.

Arguments ArInfo C : clear implicits.
Arguments value C : clear implicits.

(** *** Vocabulary of the statements *)

Section Vocabulary.

Context {C : Type} `{ArFileLike C}.

(** The bytes of a returned [bytes] object. *)
Definition returned_bytes (o : result (value C) * ArInfo C)
  : option (list byte) :=
  match fst o with
  | Return (VBytes b) => Some b
  | _ => None
  end.

(** Every numeric attribute is non-negative. *)
Definition non_negative (r : ArInfo C) : Prop :=
  0 <= mtime r /\ 0 <= uid r /\ 0 <= gid r /\ 0 <= mode r /\ 0 <= size r.

(** Every numeric attribute is non-negative and its text is no wider than
    its column of the header. *)
Definition fields_fit (r : ArInfo C) : Prop :=
  0 <= mtime r < 10 ^ 12 /\ 0 <= uid r < 10 ^ 6 /\ 0 <= gid r < 10 ^ 6 /\
  0 <= mode r < 8 ^ 8 /\ 0 <= size r < 10 ^ 10.

(** Characters that UTF-8 stores in one byte. *)
Definition is_ascii (s : pystr) : Prop := Forall (fun c => (c < 128)%N) s.

(** The five numeric columns of a header text are readable in the bases
    [frombuf] reads them in. *)
Definition numeric_fields_readable (buf : pystr) : bool :=
  match py_int (slice buf 16 28) 10, py_int (slice buf 28 34) 10,
        py_int (slice buf 34 40) 10, py_int (slice buf 40 48) 8,
        py_int (slice buf 48 58) 8 with
  | Some _, Some _, Some _, Some _, Some _ => true
  | _, _, _, _, _ => false
  end.

End Vocabulary.

(** The decimal text that [tobuf] writes for a size can be read in
    base 8, the base [frombuf] reads the size column in. *)
Definition size_text_readable_in_octal (z : Z) : Prop :=
  exists v : Z, py_int (format_d 10 z) 8 = Some v.

(** The last two bytes of a header as they must be. *)
Definition TERMINATOR_BYTES : list byte := [x60; x0a].

(** *** A filename table *)

(** Modelled from the spec: the container behind [read_filename] and
    [save_filename], whose class [ArFile] the source leaves without
    methods.  Saving a name appends it to the shared table and returns
    its offset; reading gives the name found at an offset and fails on an
    offset outside the table.  Names are stored one after the other,
    each closed by a newline.  Only the examples use this container: the
    statements are about any container. *)
Module Table.

Definition NEWLINE : char := 10%N.

Fixpoint until_newline (s : pystr) : pystr :=
  match s with
  | [] => []
  | c :: r => if (c =? NEWLINE)%N then [] else c :: until_newline r
  end.

Definition read (table : pystr) (offset : Z) : result pystr :=
  if (0 <=? offset) && (offset <? Z.of_nat (length table)) then
    Return (until_newline (slice_from table offset))
  else Raise (ContainerError "no filename at this offset").

Definition save (table : pystr) (name : pystr) : result Z * pystr :=
  (Return (Z.of_nat (length table)), table ++ name ++ [NEWLINE]).

End Table.

(** Modelled from the spec: the filename table as a container. *)
#[export] Instance table_container : ArFileLike pystr :=
  {| read_filename := Table.read; save_filename := Table.save |}.

(** *** Sample records and buffers *)

Module Samples.

(** A header as [ar] writes it for an ordinary member. *)
Definition hello_header : list byte :=
  list_byte_of_string "hello.txt/      1700000000  1000  1000  644     12        "
  ++ TERMINATOR_BYTES.

(** [ArInfo('hello.txt')] with a size of 1024 bytes. *)
Definition hello : ArInfo pystr :=
  set_size (__init__ (str "hello.txt")) 1024.

(** [ArInfo('a')] with a size of 8 bytes. *)
Definition eight : ArInfo pystr :=
  set_size (__init__ (str "a")) 8.

(** [ArInfo('a')] with a modification time of 10^12 seconds. *)
Definition late : ArInfo pystr :=
  set_mtime (__init__ (str "a")) (10 ^ 12).

(** [ArInfo('')] with a modification time of 10^12 seconds. *)
Definition late_unnamed : ArInfo pystr :=
  set_mtime (__init__ []) (10 ^ 12).

(** Sixty blanks: no numeric field is readable and the terminator is
    missing. *)
Definition blank_header : list byte := repeat x20 60.

(** A BSD extended-name header announcing 20 characters of name, with
    nothing after its 60 bytes. *)
Definition bsd_header_alone : list byte :=
  list_byte_of_string "#1/20           0           0     0     644     0         "
  ++ TERMINATOR_BYTES.

(** The header of [hello.txt] with two other bytes in place of the
    terminator. *)
Definition hello_unterminated : list byte :=
  list_byte_of_string "hello.txt/      1700000000  1000  1000  644     12        !!".

(** A BSD extended-name header followed by the 20 characters it
    announces and by the first bytes of the member. *)
Definition bsd_header_with_name : list byte :=
  bsd_header_alone ++ list_byte_of_string "twenty_characters.obELF".

Definition two_names : pystr :=
  str "first" ++ [Table.NEWLINE] ++ str "twenty_characters.ob"
  ++ [Table.NEWLINE].

(** Names at the length boundaries of the two formats. *)
Definition name15 : pystr := str "fifteen_chars.o".
Definition name16 : pystr := str "sixteen_chars.ob".
Definition name20 : pystr := str "twenty_characters.ob".

End Samples.

(** *** Vocabulary of the further statements *)

(** A name column that [frombuf] takes for an extended-name token. *)
Definition is_token (s : pystr) : bool :=
  startswith (str "/") s || startswith (str "#1/") s.

(** An integer of at most 4300 decimal digits, which the interpreter at
    its default setting converts to decimal text. *)
Definition within_digit_limit (z : Z) : Prop :=
  - 10 ^ 4300 < z < 10 ^ 4300.

(** A code point that UTF-8 has no bytes for: a lone surrogate. *)
Definition is_surrogate (c : char) : Prop := (0xD800 <= c <= 0xDFFF)%N.

Section Built.

Context {C : Type} `{ArFileLike C}.

(** The record that [frombuf] has in hand when it turns to the name:
    [cls(name)] with the five numeric attributes and the parent
    assigned. *)
Definition built_record (field : pystr) (mtime uid gid mode size : Z)
    (arfile : option C) : ArInfo C :=
  set_parent
    (set_size
       (set_mode
          (set_gid (set_uid (set_mtime (__init__ field) mtime) uid) gid)
          mode)
       size)
    arfile.

(** The attributes that [_append_common_data] writes in decimal have
    at most 4300 digits each. *)
Definition decimal_attributes_within_limit (r : ArInfo C) : Prop :=
  within_digit_limit (mtime r) /\ within_digit_limit (uid r) /\
  within_digit_limit (gid r) /\ within_digit_limit (size r).

(** The numeric attributes of a record as a tuple. *)
Definition numbers (r : ArInfo C) : Z * Z * Z * Z * Z :=
  (mtime r, uid r, gid r, mode r, size r).

End Built.

(** Records and buffers for the further statements. *)
Module Cases.

(** [ArInfo('notes.txt')] with ordinary attributes; its size, 7, reads
    the same in base 8 and in base 10. *)
Definition notes : ArInfo pystr :=
  set_size
    (set_mode
       (set_gid (set_uid (set_mtime (__init__ (str "notes.txt")) 1700000000)
                         1000)
                100)
       493)
    7.

(** The same attributes under a name of 20 characters, first without a
    container, then with the table of one name as its parent. *)
Definition long_notes : ArInfo pystr := set_name notes Samples.name20.
Definition long_notes_in_table : ArInfo pystr :=
  set_parent long_notes (Some (str "first" ++ [Table.NEWLINE])).

(** A name of one character that is a lone surrogate. *)
Definition surrogate_name : ArInfo pystr := __init__ [55296%N].

(** Fifty-nine blanks. *)
Definition short_buffer : list byte := repeat x20 59.

(** A header whose [uid] column holds letters. *)
Definition bad_uid_header : list byte :=
  list_byte_of_string "notes.txt/      1700000000  abc   100   755     7         "
  ++ TERMINATOR_BYTES.

(** The headers of the two special members of a GNU archive: the symbol
    table [/] and the filename table [//]. *)
Definition symbol_table_header : list byte :=
  list_byte_of_string "/               0           0     0     0       14        "
  ++ TERMINATOR_BYTES.
Definition filename_table_header : list byte :=
  list_byte_of_string "//                                              22        "
  ++ TERMINATOR_BYTES.

(** A BSD extended-name header that announces a length of -5. *)
Definition negative_length_header : list byte :=
  list_byte_of_string "#1/-5           0           0     0     644     0         "
  ++ TERMINATOR_BYTES.

(** A GNU extended-name header pointing at offset 6. *)
Definition offset_6_header : list byte :=
  list_byte_of_string "/6              0           0     0     644     0         "
  ++ TERMINATOR_BYTES.

End Cases.

End ArFile.

(** * Properties *)

Import PyText ArFile.

(** ** Lists, padding and slices *)

Section TextFacts.

Lemma length_ljust (w : nat) (s : pystr) :
  length (ljust w s) = Nat.max w (length s).
Proof.
  unfold ljust. rewrite length_app, repeat_length. lia.
Qed.

Lemma ljust_fits (w : nat) (s : pystr) :
  (length s <= w)%nat -> length (ljust w s) = w.
Proof.
  intros Hs. rewrite length_ljust. lia.
Qed.

Lemma ljust_full (w : nat) (s : pystr) :
  (w <= length s)%nat -> ljust w s = s.
Proof.
  intros Hs. unfold ljust.
  replace (w - length s)%nat with 0%nat by lia.
  simpl. apply app_nil_r.
Qed.

Lemma clamp_index_in_range {A} (s : list A) (i : nat) :
  (i <= length s)%nat -> clamp_index s (Z.of_nat i) = i.
Proof.
  intros Hi. unfold clamp_index.
  destruct (Z.of_nat i <? 0) eqn:E; [apply Z.ltb_lt in E; lia|].
  lia.
Qed.

(** A slice that covers exactly one block of a concatenation. *)
Lemma slice_block {A} (a b c : list A) (i j : nat) :
  length a = i -> (length a + length b)%nat = j ->
  slice (a ++ b ++ c) (Z.of_nat i) (Z.of_nat j) = b.
Proof.
  intros Hi Hj. unfold slice.
  rewrite !clamp_index_in_range by (rewrite !length_app; lia).
  subst i. rewrite skipn_app, skipn_all, Nat.sub_diag. simpl.
  rewrite firstn_app.
  replace (j - length a)%nat with (length b) by lia.
  rewrite firstn_all, Nat.sub_diag. simpl. apply app_nil_r.
Qed.

Lemma slice_prefix {A} (a c : list A) (j : nat) :
  length a = j -> slice (a ++ c) 0 (Z.of_nat j) = a.
Proof.
  intros Hj.
  apply (slice_block [] a c 0 j); simpl; auto.
Qed.

(** The seven columns of a 60-character header. *)
Lemma header_columns (f0 f1 f2 f3 f4 f5 t : pystr) :
  length f0 = 16%nat -> length f1 = 12%nat -> length f2 = 6%nat ->
  length f3 = 6%nat -> length f4 = 8%nat -> length f5 = 10%nat ->
  length t = 2%nat ->
  let buf := f0 ++ f1 ++ f2 ++ f3 ++ f4 ++ f5 ++ t in
  length buf = 60%nat /\
  slice buf 0 16 = f0 /\ slice buf 16 28 = f1 /\ slice buf 28 34 = f2 /\
  slice buf 34 40 = f3 /\ slice buf 40 48 = f4 /\ slice buf 48 58 = f5 /\
  slice buf 58 60 = t.
Proof.
  intros H0 H1 H2 H3 H4 H5 Ht buf. subst buf.
  split; [rewrite !length_app; lia|].
  split; [apply (slice_prefix f0 _ 16); auto|].
  split; [apply (slice_block f0 f1 _ 16 28); lia|].
  split.
  { rewrite (app_assoc f0 f1).
    apply (slice_block (f0 ++ f1) f2 _ 28 34); rewrite ?length_app; lia. }
  split.
  { rewrite (app_assoc f0 f1), (app_assoc (f0 ++ f1) f2).
    apply (slice_block _ f3 _ 34 40); rewrite ?length_app; lia. }
  split.
  { rewrite (app_assoc f0 f1), (app_assoc (f0 ++ f1) f2),
      (app_assoc ((f0 ++ f1) ++ f2) f3).
    apply (slice_block _ f4 _ 40 48); rewrite ?length_app; lia. }
  split.
  { rewrite (app_assoc f0 f1), (app_assoc (f0 ++ f1) f2),
      (app_assoc ((f0 ++ f1) ++ f2) f3),
      (app_assoc (((f0 ++ f1) ++ f2) ++ f3) f4).
    apply (slice_block _ f5 _ 48 58); rewrite ?length_app; lia. }
  rewrite (app_assoc f0 f1), (app_assoc (f0 ++ f1) f2),
    (app_assoc ((f0 ++ f1) ++ f2) f3),
    (app_assoc (((f0 ++ f1) ++ f2) ++ f3) f4),
    (app_assoc ((((f0 ++ f1) ++ f2) ++ f3) ++ f4) f5).
  rewrite <- (app_nil_r t) at 1.
  apply (slice_block _ t [] 58 60); rewrite ?length_app; lia.
Qed.

End TextFacts.

(** ** Integers as text *)

Section DigitFacts.

Variable base : N.
Hypothesis base_lo : (2 <= base)%N.
Hypothesis base_hi : (base <= 10)%N.

Lemma digit_char_digit (d : N) : (d < base)%N -> digit_of base (digit_char d).
Proof.
  intros Hd. unfold digit_of, digit_char.
  destruct (d <? 10)%N eqn:E; [lia|]. apply N.ltb_ge in E. lia.
Qed.

Lemma digit_value_digit_char (d : N) :
  (d < base)%N -> digit_value (digit_char d) = d.
Proof.
  intros Hd. unfold digit_value, digit_char.
  destruct (d <? 10)%N eqn:E; [|apply N.ltb_ge in E; lia].
  replace ((48 <=? 48 + d) && (48 + d <=? 57))%N with true; [lia|].
  symmetry. apply andb_true_iff. split; apply N.leb_le; lia.
Qed.

Lemma digit_of_value (c : char) :
  digit_of base c -> (digit_value c < base)%N /\ c <> UNDERSCORE /\
                is_c_space c = false /\ (c < 127)%N /\
                c <> PLUS /\ c <> MINUS.
Proof.
  unfold digit_of, digit_value, UNDERSCORE, is_c_space, PLUS, MINUS.
  intros Hc.
  replace ((48 <=? c) && (c <=? 57))%N with true
    by (symmetry; apply andb_true_iff; split; apply N.leb_le; lia).
  repeat split; try lia.
  apply orb_false_iff. split; [apply N.eqb_neq; lia|].
  apply andb_false_iff. right. apply N.leb_gt. lia.
Qed.

Lemma digits_fuel_S (f : nat) (n : N) (acc : pystr) :
  digits_fuel (S f) base n acc =
  if (n / base =? 0)%N then digit_char (n mod base) :: acc
  else digits_fuel f base (n / base) (digit_char (n mod base) :: acc).
Proof. reflexivity. Qed.

Lemma digits_fuel_spec (f : nat) :
  forall (n : N) (tail : pystr),
    (n < 2 ^ N.of_nat f)%N ->
    exists ds, digits_fuel (S f) base n tail = ds ++ tail /\
               ds <> [] /\ Forall (digit_of base) ds /\ digits_value base ds 0 = n.
Proof.
  induction f as [|f IH]; intros n tail Hn.
  - assert (n = 0%N) by (simpl in Hn; lia). subst n.
    exists [digit_char 0]. simpl.
    repeat split; try discriminate.
    constructor; [apply digit_char_digit; lia|constructor].
  - rewrite digits_fuel_S.
    destruct (n / base =? 0)%N eqn:E.
    + apply N.eqb_eq in E.
      assert (Hm : (n mod base < base)%N) by (apply N.mod_lt; lia).
      exists [digit_char (n mod base)]. repeat split; try discriminate.
      * constructor; [apply digit_char_digit; assumption|constructor].
      * unfold digits_value. simpl. rewrite digit_value_digit_char by assumption.
        pose proof (N.div_mod n base ltac:(lia)). lia.
    + apply N.eqb_neq in E.
      assert (Hq : (n / base < 2 ^ N.of_nat f)%N).
      { apply N.Div0.div_lt_upper_bound.
        rewrite Nat2N.inj_succ, N.pow_succ_r' in Hn. nia. }
      destruct (IH (n / base)%N (digit_char (n mod base) :: tail) Hq)
        as (ds & Hds & Hne & Hall & Hval).
      assert (Hm : (n mod base < base)%N) by (apply N.mod_lt; lia).
      exists (ds ++ [digit_char (n mod base)]). repeat split.
      * rewrite Hds, <- app_assoc. reflexivity.
      * destruct ds; discriminate.
      * apply Forall_app. split; [assumption|].
        constructor; [apply digit_char_digit; assumption|constructor].
      * unfold digits_value in *. rewrite fold_left_app, Hval. simpl.
        rewrite digit_value_digit_char by assumption.
        pose proof (N.div_mod n base ltac:(lia)). lia.
Qed.

Lemma to_base_spec (n : N) :
  exists ds, to_base base n = ds /\ ds <> [] /\ Forall (digit_of base) ds /\
             digits_value base ds 0 = n.
Proof.
  unfold to_base.
  destruct (digits_fuel_spec (N.to_nat (N.size n)) n []) as (ds & Hds & H).
  - rewrite N2Nat.id. apply N.size_gt.
  - exists ds. rewrite Hds, app_nil_r. auto.
Qed.

(** The number of digits of a number below [base ^ k]. *)
Lemma digits_fuel_length (f : nat) :
  forall (n : N) (acc : pystr) (k : nat),
    (1 <= k)%nat -> (n < base ^ N.of_nat k)%N ->
    (length (digits_fuel f base n acc) <= k + length acc)%nat.
Proof.
  induction f as [|f IH]; intros n acc k Hk Hn; simpl; [lia|].
  destruct (n / base =? 0)%N eqn:E; [simpl; lia|].
  apply N.eqb_neq in E.
  destruct k as [|[|k]]; [lia| |].
  - exfalso. apply E. apply N.div_small.
    change (N.of_nat 1) with 1%N in Hn. rewrite N.pow_1_r in Hn. exact Hn.
  - assert (Hq : (n / base < base ^ N.of_nat (S k))%N).
    { apply N.Div0.div_lt_upper_bound.
      rewrite (Nat2N.inj_succ (S k)), N.pow_succ_r' in Hn. nia. }
    specialize (IH (n / base)%N (digit_char (n mod base) :: acc) (S k)
                   ltac:(lia) Hq).
    simpl in IH. lia.
Qed.

Lemma to_base_length (n : N) (k : nat) :
  (1 <= k)%nat -> (n < base ^ N.of_nat k)%N ->
  (length (to_base base n) <= k)%nat.
Proof.
  intros Hk Hn. unfold to_base.
  pose proof (digits_fuel_length (S (N.to_nat (N.size n))) n [] k Hk Hn) as L.
  simpl in L. simpl. lia.
Qed.

(** Reading a run of digits followed by something else. *)
Lemma scan_digits_run (ds : pystr) :
  Forall (digit_of base) ds ->
  forall (tail : pystr) (pu : bool) (a : N),
    ds <> [] ->
    scan_digits base (ds ++ tail) pu a =
    scan_digits base tail false (digits_value base ds a).
Proof.
  induction 1 as [|c ds Hc Hds IH]; intros tail pu a Hne; [congruence|].
  destruct (digit_of_value c Hc) as (Hv & Hu & _).
  simpl. apply N.eqb_neq in Hu. rewrite Hu.
  apply N.ltb_lt in Hv. rewrite Hv.
  destruct ds as [|c' ds'].
  - reflexivity.
  - rewrite IH by discriminate. reflexivity.
Qed.

Lemma skip_c_space_blanks (k : nat) : skip_c_space (repeat SPACE k) = [].
Proof. induction k; simpl; auto. Qed.

Lemma scan_digits_blanks (k : nat) (n : N) :
  scan_digits base (repeat SPACE k) false n = Some (n, repeat SPACE k).
Proof.
  destruct k; simpl; [reflexivity|].
  change (digit_value SPACE) with 37%N.
  replace (37 <? base)%N with false; [reflexivity|].
  symmetry. apply N.ltb_ge. lia.
Qed.

Lemma to_ascii_digit_or_space_id (s : pystr) :
  Forall (fun c => (c < 127)%N) s -> List.map to_ascii_digit_or_space s = s.
Proof.
  induction 1 as [|c s Hc Hs IH]; simpl; [reflexivity|].
  rewrite IH. unfold to_ascii_digit_or_space.
  apply N.ltb_lt in Hc. rewrite Hc. reflexivity.
Qed.

Lemma base_prefix_digit_or_blank (c : char) :
  digit_of base c \/ c = SPACE -> base_prefix base c = false.
Proof.
  unfold digit_of, SPACE, base_prefix. intros Hc.
  assert (Hlt : (c < 66)%N) by (destruct Hc; lia).
  repeat match goal with
         | |- context [(c =? ?k)%N] =>
             replace (c =? k)%N with false by (symmetry; apply N.eqb_neq; lia)
         end.
  rewrite !orb_false_r, !andb_false_r. reflexivity.
Qed.

(** What [int] reads back from the digits written for a number,
    however many blanks follow them. *)
Lemma py_int_to_base_blanks (n : N) (k : nat) :
  py_int (to_base base n ++ repeat SPACE k) base = Some (Z.of_N n).
Proof.
  destruct (to_base_spec n) as (ds & Hds & Hne & Hall & Hval).
  rewrite Hds.
  assert (Hblank : Forall (fun c => (c < 127)%N) (repeat SPACE k)).
  { apply Forall_forall. intros c Hc. apply repeat_spec in Hc.
    subst c. unfold SPACE. lia. }
  assert (Hlow : Forall (fun c => (c < 127)%N) (ds ++ repeat SPACE k)).
  { apply Forall_app. split; [|assumption].
    eapply Forall_impl; [|exact Hall].
    intros c Hc. apply digit_of_value in Hc. tauto. }
  unfold py_int. rewrite to_ascii_digit_or_space_id by assumption.
  destruct ds as [|c ds']; [congruence|].
  inversion Hall as [|? ? Hc Hall']; subst.
  destruct (digit_of_value c Hc) as (Hv & Hu & Hsp & _ & Hplus & Hminus).
  cbn [app skip_c_space]. rewrite Hsp.
  unfold strip_sign.
  apply N.eqb_neq in Hplus, Hminus. rewrite Hplus, Hminus.
  assert (Hpre : strip_base_prefix base (c :: ds' ++ repeat SPACE k)
                 = c :: ds' ++ repeat SPACE k).
  { unfold strip_base_prefix.
    destruct (ds' ++ repeat SPACE k) as [|c2 r] eqn:E; [reflexivity|].
    rewrite base_prefix_digit_or_blank, andb_false_r; [reflexivity|].
    destruct ds' as [|d ds''].
    - right. destruct k; simpl in E; [discriminate|]. congruence.
    - left. simpl in E. inversion E; subst. inversion Hall'; assumption. }
  rewrite Hpre.
  apply N.ltb_lt in Hv. rewrite Hv.
  change (c :: ds' ++ repeat SPACE k) with ((c :: ds') ++ repeat SPACE k).
  rewrite scan_digits_run by (assumption || discriminate).
  rewrite scan_digits_blanks, skip_c_space_blanks. reflexivity.
Qed.

(** A minus sign in front of a digit negates what is read. *)
Lemma py_int_minus (c : char) (t : pystr) :
  digit_of base c ->
  py_int (MINUS :: c :: t) base = option_map Z.opp (py_int (c :: t) base).
Proof.
  intros Hc.
  destruct (digit_of_value c Hc) as (_ & _ & Hsp & Hlow & Hplus & Hminus).
  unfold py_int. cbn [List.map].
  change (to_ascii_digit_or_space MINUS) with MINUS.
  replace (to_ascii_digit_or_space c) with c
    by (unfold to_ascii_digit_or_space;
        replace (c <? 127)%N with true by (symmetry; apply N.ltb_lt; lia);
        reflexivity).
  cbn [skip_c_space]. change (is_c_space MINUS) with false. rewrite Hsp.
  cbv iota. unfold strip_sign.
  change (MINUS =? PLUS)%N with false. change (MINUS =? MINUS)%N with true.
  apply N.eqb_neq in Hplus, Hminus. rewrite Hplus, Hminus. cbv iota.
  destruct (strip_base_prefix base
              (c :: List.map to_ascii_digit_or_space t)) as [|d r];
    [reflexivity|].
  destruct (digit_value d <? base)%N; [|reflexivity].
  destruct (scan_digits base (d :: r) false 0) as [[v rest]|];
    [|reflexivity].
  destruct (skip_c_space rest); reflexivity.
Qed.

(** What [int] reads back from the text written for a number, whatever
    the width of the column. *)
Lemma py_int_ljust_int_to_base (w : nat) (z : Z) :
  py_int (ljust w (int_to_base base z)) base = Some z.
Proof.
  unfold int_to_base, ljust.
  destruct (z <? 0) eqn:Hz.
  - apply Z.ltb_lt in Hz.
    set (k := (w - length (MINUS :: to_base base (Z.abs_N z)))%nat).
    clearbody k.
    pose proof (py_int_to_base_blanks (Z.abs_N z) k) as Hread.
    destruct (to_base_spec (Z.abs_N z)) as (ds & Hds & Hne & Hall & _).
    rewrite Hds in *. destruct ds as [|c ds']; [congruence|].
    inversion Hall as [|? ? Hc _]; subst.
    cbn [app] in *. rewrite py_int_minus, Hread by assumption.
    cbn [option_map]. f_equal. rewrite N2Z.inj_abs_N. lia.
  - apply Z.ltb_ge in Hz.
    rewrite py_int_to_base_blanks, Z2N.id by assumption. reflexivity.
Qed.

(** The text of a non-negative number below [base ^ k] fills a column of
    [k] characters exactly. *)
Lemma length_ljust_int_to_base (k : nat) (z : Z) :
  (1 <= k)%nat -> 0 <= z < Z.of_N base ^ Z.of_nat k ->
  length (ljust k (int_to_base base z)) = k.
Proof.
  intros Hk Hz. apply ljust_fits. unfold int_to_base.
  replace (z <? 0) with false by (symmetry; apply Z.ltb_ge; lia).
  apply to_base_length; [assumption|].
  apply N2Z.inj_lt. rewrite N2Z.inj_pow, nat_N_Z, Z2N.id; lia.
Qed.

(** The text written for a non-negative number is ASCII. *)
Lemma int_to_base_ascii (z : Z) : 0 <= z -> is_ascii (int_to_base base z).
Proof.
  intros Hz. unfold int_to_base.
  replace (z <? 0) with false by (symmetry; apply Z.ltb_ge; lia).
  destruct (to_base_spec (Z.to_N z)) as (ds & Hds & _ & Hall & _).
  rewrite Hds. eapply Forall_impl; [|exact Hall].
  intros c Hc. apply digit_of_value in Hc. lia.
Qed.

End DigitFacts.

(** ** The UTF-8 codec on ASCII *)

Section Utf8Facts.

Lemma to_N_byte_of_N (c : N) :
  (c <= 255)%N -> Byte.to_N (Utf8.byte_of_N c) = c.
Proof.
  intros Hc. unfold Utf8.byte_of_N.
  destruct (Byte.of_N c) as [b|] eqn:E.
  - apply Byte.to_of_N. exact E.
  - apply Byte.of_N_None_iff in E. lia.
Qed.

Lemma byte_of_N_to_N (b : byte) : Utf8.byte_of_N (Byte.to_N b) = b.
Proof.
  unfold Utf8.byte_of_N. rewrite Byte.of_to_N. reflexivity.
Qed.

Lemma encode_ascii (s : pystr) :
  is_ascii s -> Utf8.encode s = Some (List.map Utf8.byte_of_N s).
Proof.
  induction 1 as [|c s Hc Hs IH]; [reflexivity|].
  cbn [Utf8.encode List.map]. rewrite IH.
  unfold Utf8.encode_char.
  replace (c <? 128)%N with true by (symmetry; apply N.ltb_lt; exact Hc).
  reflexivity.
Qed.

Lemma decode_cons (b0 : byte) (r0 : list byte) :
  (Byte.to_N b0 <? 128)%N = true ->
  Utf8.decode (b0 :: r0) = option_map (cons (Byte.to_N b0)) (Utf8.decode r0).
Proof.
  intros Hb. cbn [Utf8.decode]. rewrite Hb. reflexivity.
Qed.

Lemma decode_ascii (s : pystr) :
  is_ascii s -> Utf8.decode (List.map Utf8.byte_of_N s) = Some s.
Proof.
  induction 1 as [|c s Hc Hs IH]; [reflexivity|].
  cbn [List.map]. rewrite decode_cons.
  - rewrite IH, to_N_byte_of_N by lia. reflexivity.
  - rewrite to_N_byte_of_N by lia. apply N.ltb_lt. exact Hc.
Qed.

Lemma length_encode_ascii (s : pystr) (b : list byte) :
  is_ascii s -> Utf8.encode s = Some b -> length b = length s.
Proof.
  intros Hs Hb. rewrite encode_ascii in Hb by assumption.
  inversion Hb. apply length_map.
Qed.

(** Decoding never yields more characters than there are bytes, and
    yields as many only when every byte stands for itself. *)
Lemma decode_length_bound (n : nat) :
  forall (bs : list byte) (t : pystr),
    (length bs < n)%nat -> Utf8.decode bs = Some t ->
    (length t <= length bs)%nat /\
    (length t = length bs -> t = List.map Byte.to_N bs).
Proof.
  induction n as [|n IH]; intros bs t Hn Hd; [lia|].
  destruct bs as [|b0 r0].
  { inversion Hd. split; auto. }
  assert (Hstep : forall (r : list byte) (c : char),
             (length r < n)%nat ->
             option_map (cons c) (Utf8.decode r) = Some t ->
             exists t', t = c :: t' /\ (length t' <= length r)%nat /\
                        (length t' = length r -> t' = List.map Byte.to_N r)).
  { intros r c Hr Ho.
    destruct (Utf8.decode r) as [t'|] eqn:D; [|discriminate].
    inversion Ho; subst. exists t'. split; [reflexivity|].
    apply IH; assumption. }
  cbn [Utf8.decode] in Hd. cbn [length] in *.
  destruct (Byte.to_N b0 <? 128)%N.
  { apply Hstep in Hd; [|lia]. destruct Hd as (t' & -> & Hle & Heq).
    cbn [length List.map]. split; [lia|].
    intros E. f_equal. apply Heq. lia. }
  destruct r0 as [|b1 r1]; [discriminate|].
  destruct (negb (Utf8.is_cont b1)); [discriminate|].
  cbn [length] in *.
  destruct ((192 <=? Byte.to_N b0) && (Byte.to_N b0 <? 224))%N.
  { match type of Hd with (if ?c then _ else _) = _ => destruct c end;
      [discriminate|].
    apply Hstep in Hd; [|lia]. destruct Hd as (t' & -> & Hle & _).
    cbn [length]. split; lia. }
  destruct r1 as [|b2 r2]; [discriminate|].
  destruct (negb (Utf8.is_cont b2)); [discriminate|].
  cbn [length] in *.
  destruct ((224 <=? Byte.to_N b0) && (Byte.to_N b0 <? 240))%N.
  { match type of Hd with (if ?c then _ else _) = _ => destruct c end;
      [discriminate|].
    apply Hstep in Hd; [|lia]. destruct Hd as (t' & -> & Hle & _).
    cbn [length]. split; lia. }
  destruct r2 as [|b3 r3]; [discriminate|].
  destruct (negb (Utf8.is_cont b3)); [discriminate|].
  cbn [length] in *.
  destruct ((240 <=? Byte.to_N b0) && (Byte.to_N b0 <? 248))%N;
    [|discriminate].
  match type of Hd with (if ?c then _ else _) = _ => destruct c end;
    [discriminate|].
  apply Hstep in Hd; [|lia]. destruct Hd as (t' & -> & Hle & _).
  cbn [length]. split; lia.
Qed.

Lemma decode_same_length (bs : list byte) (t : pystr) :
  Utf8.decode bs = Some t -> length t = length bs ->
  t = List.map Byte.to_N bs.
Proof.
  intros Hd Hl.
  apply (decode_length_bound (S (length bs)) bs t); auto.
Qed.

End Utf8Facts.

(** ** The header written by [tobuf] *)

Section EncodeFacts.

Context {C : Type} `{ArFileLike C}.

(** The common part, column by column. *)
Lemma append_common_data_columns (self : ArInfo C) :
  _append_common_data self =
  format_d 12 (mtime self) ++ format_d 6 (uid self) ++ format_d 6 (gid self)
  ++ format_o 8 (mode self) ++ format_d 10 (size self) ++ TERMINATOR.
Proof.
  unfold _append_common_data. cbn [app]. rewrite <- !app_assoc. reflexivity.
Qed.

Lemma append_common_data_set_parent (self : ArInfo C) (p : option C) :
  _append_common_data (set_parent self p) = _append_common_data self.
Proof. reflexivity. Qed.

Lemma append_common_data_set_inline_name (self : ArInfo C) (b : bool) :
  _append_common_data (set_inline_name self b) = _append_common_data self.
Proof. reflexivity. Qed.

Lemma length_format_d (k : nat) (z : Z) :
  (1 <= k)%nat -> 0 <= z < 10 ^ Z.of_nat k -> length (format_d k z) = k.
Proof.
  intros Hk Hz. unfold format_d.
  apply length_ljust_int_to_base; solve [lia | exact Hz].
Qed.

Lemma length_format_o (k : nat) (z : Z) :
  (1 <= k)%nat -> 0 <= z < 8 ^ Z.of_nat k -> length (format_o k z) = k.
Proof.
  intros Hk Hz. unfold format_o.
  apply length_ljust_int_to_base; solve [lia | exact Hz].
Qed.

Lemma is_ascii_ljust (w : nat) (s : pystr) : is_ascii s -> is_ascii (ljust w s).
Proof.
  intros Hs. unfold ljust. apply Forall_app. split; [assumption|].
  apply Forall_forall. intros c Hc. apply repeat_spec in Hc. subst c.
  unfold SPACE. lia.
Qed.

Lemma is_ascii_format_d (k : nat) (z : Z) : 0 <= z -> is_ascii (format_d k z).
Proof.
  intros Hz. apply is_ascii_ljust. apply int_to_base_ascii; lia.
Qed.

Lemma is_ascii_format_o (k : nat) (z : Z) : 0 <= z -> is_ascii (format_o k z).
Proof.
  intros Hz. apply is_ascii_ljust. apply int_to_base_ascii; lia.
Qed.

Lemma is_ascii_terminator : is_ascii TERMINATOR.
Proof. repeat constructor. Qed.

Lemma length_append_common_data (self : ArInfo C) :
  fields_fit self -> length (_append_common_data self) = 44%nat.
Proof.
  intros (Hm & Hu & Hg & Ho & Hs).
  rewrite append_common_data_columns, !length_app.
  rewrite !length_format_d, length_format_o by (lia || assumption).
  reflexivity.
Qed.

Lemma is_ascii_append_common_data (self : ArInfo C) :
  non_negative self -> is_ascii (_append_common_data self).
Proof.
  intros (Hm & Hu & Hg & Ho & Hs).
  rewrite append_common_data_columns. unfold is_ascii.
  rewrite !Forall_app.
  repeat split;
    try (apply is_ascii_format_d; assumption);
    try (apply is_ascii_format_o; assumption).
  apply is_ascii_terminator.
Qed.

Lemma fields_fit_non_negative (self : ArInfo C) :
  fields_fit self -> non_negative self.
Proof. unfold fields_fit, non_negative. intuition lia. Qed.

(** A 16-character ASCII name column followed by columns that fit is
    written as 60 bytes, one per character. *)
Lemma encode_text_header (field : pystr) (self : ArInfo C) :
  length field = 16%nat -> is_ascii field -> fields_fit self ->
  let text := field ++ _append_common_data self in
  encode_text (C:=C) ENCODING text
  = Return (VBytes (List.map Utf8.byte_of_N text))
  /\ length (List.map Utf8.byte_of_N text) = 60%nat.
Proof.
  intros Hlen Hasc Hfit text. subst text. split.
  - unfold encode_text. cbn [codec_encode ENCODING].
    rewrite encode_ascii; [reflexivity|].
    apply Forall_app. split; [assumption|].
    apply is_ascii_append_common_data, fields_fit_non_negative, Hfit.
  - rewrite length_map, length_app, length_append_common_data by assumption.
    lia.
Qed.

End EncodeFacts.

(** ** Claims about [tobuf] *)

(** C9: for every format selector other than [GNU_FORMAT] (1) and
    [BSD_FORMAT] (2), [tobuf] gives an [EncodingError] object back as its
    result value: nothing is raised, no header bytes are produced, and
    the record is left as it was. *)
Theorem tobuf_unknown_format_returns_error {C : Type} `{ArFileLike C}
    (self : ArInfo C) (format : Z) (encoding : codec) :
  format <> GNU_FORMAT -> format <> BSD_FORMAT ->
  tobuf self format encoding
  = (Return (VException (EncodingError (InvalidFormat format))), self).
Proof.
  intros Hgnu Hbsd. unfold tobuf.
  apply Z.eqb_neq in Hgnu, Hbsd. rewrite Hgnu, Hbsd. reflexivity.
Qed.

Lemma tobuf_unknown_format_returns_error_witness :
  3 <> GNU_FORMAT /\ 3 <> BSD_FORMAT /\
  tobuf Samples.hello 3 ENCODING
  = (Return (VException (EncodingError (InvalidFormat 3))), Samples.hello).
Proof.
  split; [discriminate|]. split; [discriminate|].
  apply (tobuf_unknown_format_returns_error Samples.hello 3 ENCODING);
    discriminate.
Defined.

(** C7: for every record whose name is longer than 15 characters,
    GNU-format [tobuf] with no parent container raises [EncodingError]:
    no bytes are produced, so the name is never truncated. *)
Theorem tobuf_gnu_long_name_needs_container {C : Type} `{ArFileLike C}
    (self : ArInfo C) (encoding : codec) :
  (15 < length (name self))%nat -> _parent self = None ->
  tobuf self GNU_FORMAT encoding
  = (Raise (EncodingError UnableToSaveExtendedFilename), self).
Proof.
  intros Hlen Hparent. unfold tobuf, _create_gnu_format.
  cbn [GNU_FORMAT BSD_FORMAT Z.eqb Pos.eqb].
  replace (length (name self) <=? 15)%nat with false
    by (symmetry; apply Nat.leb_gt; exact Hlen).
  rewrite Hparent. reflexivity.
Qed.

Lemma tobuf_gnu_long_name_needs_container_witness :
  (15 < length (name (__init__ (C:=pystr) Samples.name20)))%nat /\
  _parent (__init__ (C:=pystr) Samples.name20) = None /\
  tobuf (__init__ (C:=pystr) Samples.name20) GNU_FORMAT ENCODING
  = (Raise (EncodingError UnableToSaveExtendedFilename),
     __init__ Samples.name20).
Proof.
  split; [vm_compute; lia|]. split; [reflexivity|].
  apply (tobuf_gnu_long_name_needs_container
           (__init__ (C:=pystr) Samples.name20) ENCODING);
    [vm_compute; lia|reflexivity].
Defined.

(** C6: the length boundaries of the name column.  With a name of
    exactly 16 characters BSD-format [tobuf] writes the name itself in
    the column (no [#1/] token, the record unchanged); with a name of
    exactly 15 characters GNU-format [tobuf] writes the name and its
    slash (the container is not consulted); with a name of 16 characters
    GNU-format [tobuf] saves the name in the container and writes
    [/<offset>], and raises when there is no container. *)
Theorem name_length_boundaries {C : Type} `{ArFileLike C}
    (self : ArInfo C) (n15 n16 : pystr) (encoding : codec) :
  length n15 = 15%nat -> length n16 = 16%nat ->
  tobuf (set_name self n16) BSD_FORMAT encoding
  = (encode_text encoding (n16 ++ _append_common_data self),
     set_name self n16)
  /\ tobuf (set_name self n15) GNU_FORMAT encoding
     = (encode_text encoding (n15 ++ [SLASH] ++ _append_common_data self),
        set_name self n15)
  /\ (forall parent : C,
         _parent self = Some parent ->
         tobuf (set_name self n16) GNU_FORMAT encoding
         = match save_filename parent n16 with
           | (Return offset, parent') =>
               (encode_text encoding
                  (ljust 16 (SLASH :: int_str offset)
                   ++ _append_common_data self),
                set_parent (set_name self n16) (Some parent'))
           | (Raise e, parent') =>
               (Raise e, set_parent (set_name self n16) (Some parent'))
           end)
  /\ (_parent self = None ->
      tobuf (set_name self n16) GNU_FORMAT encoding
      = (Raise (EncodingError UnableToSaveExtendedFilename),
         set_name self n16)).
Proof.
  intros H15 H16. unfold tobuf.
  cbn [GNU_FORMAT BSD_FORMAT Z.eqb Pos.eqb].
  unfold _create_bsd_format, _create_gnu_format.
  cbn [name set_name _parent]. rewrite H15, H16.
  cbn [Nat.leb].
  repeat split.
  - rewrite ljust_full by lia. reflexivity.
  - rewrite ljust_full by (rewrite length_app; simpl; lia).
    rewrite <- app_assoc. reflexivity.
  - intros parent Hp. rewrite Hp.
    destruct (save_filename parent n16) as [[offset|e] parent']; reflexivity.
  - intros Hp. rewrite Hp. reflexivity.
Qed.

Lemma name_length_boundaries_witness :
  length Samples.name15 = 15%nat /\ length Samples.name16 = 16%nat /\
  returned_bytes
    (tobuf (set_name (set_parent (__init__ []) (Some (str "ab")))
                     Samples.name16) GNU_FORMAT ENCODING)
  = Some (list_byte_of_string
            "/2              0           0     0     644     0         "
          ++ TERMINATOR_BYTES).
Proof.
  split; [reflexivity|]. split; [reflexivity|].
  destruct (name_length_boundaries
              (set_parent (__init__ []) (Some (str "ab")))
              Samples.name15 Samples.name16 ENCODING eq_refl eq_refl)
    as (_ & _ & Hgnu & _).
  rewrite (Hgnu (str "ab") eq_refl). reflexivity.
Defined.

(** ** Claims about [frombuf] *)

(** Case analysis on the five numeric columns in the order [frombuf]
    reads them; [tac] closes the case of a column that is not readable. *)
Ltac numeric_columns text tac :=
  destruct (py_int (slice text 16 28) 10); cbn [bind]; [|tac];
  destruct (py_int (slice text 28 34) 10); cbn [bind]; [|tac];
  destruct (py_int (slice text 34 40) 10); cbn [bind]; [|tac];
  destruct (py_int (slice text 40 48) 8); cbn [bind]; [|tac];
  destruct (py_int (slice text 48 58) 8); cbn [bind]; [|tac].

(** Whatever [frombuf] is given, a call that raises nothing evaluates to
    [None]: the record it has built is not handed to the caller. *)
Lemma frombuf_returns_only_None {C : Type} `{ArFileLike C}
    (buf : value C) (arfile : option C) (encoding : codec) (v : value C) :
  frombuf buf arfile encoding = Return v -> v = VNone.
Proof.
  unfold frombuf.
  destruct (frombuf_info_obj buf arfile encoding); cbn [bind]; congruence.
Qed.

(** C1, on the header of an ordinary member (name [hello.txt/], valid
    numeric columns, valid terminator): [frombuf] builds the record with
    the columns read from the buffer, then returns [None] and not the
    record; the attribute [_inline_name] is left at its default and the
    attribute [_inline_filename] is not created. *)
Theorem frombuf_wellformed_header_returns_None :
  frombuf_info_obj (VBytes Samples.hello_header) (None : option pystr)
                   ENCODING
  = Return {| name := str "hello.txt/";
              mtime := 1700000000;
              uid := 1000;
              gid := 1000;
              mode := 420;
              size := 10;
              _stream_fd := None;
              _stream_offs := 0;
              _parent := None;
              _inline_name := false;
              _inline_filename := None |}
  /\ frombuf (VBytes Samples.hello_header) (None : option pystr) ENCODING
     = Return VNone.
Proof. split; vm_compute; reflexivity. Qed.

(** C2, on [ArInfo('hello.txt')] with a size of 1024 and on [ArInfo('a')]
    with a size of 8: the bytes written in GNU format do not decode back
    to the record.  For the first, [frombuf] returns [None]; the record
    it has built inside has the name [hello.txt/] (the slash is kept) and
    the size 532 (the decimal text [1024] read in base 8).  For the
    second, [frombuf] raises on the size column, [8] being no octal
    digit. *)
Theorem gnu_roundtrip_does_not_reproduce :
  (exists b info,
      returned_bytes (tobuf Samples.hello GNU_FORMAT ENCODING) = Some b
      /\ frombuf (VBytes b) (None : option pystr) ENCODING = Return VNone
      /\ frombuf_info_obj (VBytes b) (None : option pystr) ENCODING
         = Return info
      /\ name info = str "hello.txt/" /\ name Samples.hello = str "hello.txt"
      /\ size info = 532 /\ size Samples.hello = 1024)
  /\ (exists b,
         returned_bytes (tobuf Samples.eight GNU_FORMAT ENCODING) = Some b
         /\ frombuf (VBytes b) (None : option pystr) ENCODING
            = Raise (HeaderError
                       (InvalidNumericField (str "8         ") "size"))).
Proof.
  split.
  - eexists. eexists.
    split; [vm_compute; reflexivity|].
    split; [vm_compute; reflexivity|].
    split; [vm_compute; reflexivity|].
    repeat split.
  - eexists. split; [vm_compute; reflexivity|].
    vm_compute; reflexivity.
Qed.

(** ** The length of the header written *)

(** C3 as stated fails on [ArInfo('a')] with [mtime = 10 ** 12]: every
    numeric attribute is non-negative, yet BSD-format [tobuf] writes 61
    bytes, the thirteen digits of the time overflowing their column. *)
Lemma tobuf_wide_mtime_writes_61_bytes :
  non_negative Samples.late /\
  option_map (@length byte)
    (returned_bytes (tobuf Samples.late BSD_FORMAT ENCODING)) = Some 61%nat.
Proof.
  split; [|vm_compute; reflexivity].
  unfold non_negative. vm_compute. intuition discriminate.
Qed.

Lemma length_extended_token (prefix : pystr) (n : Z) (k : nat) :
  (1 <= k)%nat -> (length prefix + k <= 16)%nat -> 0 <= n < 10 ^ Z.of_nat k ->
  length (ljust 16 (prefix ++ int_str n)) = 16%nat.
Proof.
  intros Hk Hp Hn. apply ljust_fits. rewrite length_app.
  assert (L : (length (int_str n) <= k)%nat).
  { unfold int_str, int_to_base.
    replace (n <? 0) with false by (symmetry; apply Z.ltb_ge; lia).
    apply to_base_length; [lia|lia|exact Hk|].
    apply N2Z.inj_lt. rewrite N2Z.inj_pow, nat_N_Z, Z2N.id; lia. }
  lia.
Qed.

Lemma is_ascii_extended_token (prefix : pystr) (n : Z) :
  is_ascii prefix -> 0 <= n -> is_ascii (ljust 16 (prefix ++ int_str n)).
Proof.
  intros Hp Hn. apply is_ascii_ljust. apply Forall_app. split; [assumption|].
  apply int_to_base_ascii; lia.
Qed.

(** C3 as amended: when the numeric attributes are non-negative and fit
    their columns, [tobuf] writes exactly 60 bytes
    - in BSD format for an ASCII name of at most 16 characters, and for
      any longer name (of fewer than 10^13 characters), whose characters
      are not part of what is written;
    - in GNU format for an ASCII name of at most 15 characters, and for a
      longer name when the container gives back an offset from 0 to
      10^15 - 1. *)
Theorem tobuf_writes_60_bytes_when_columns_fit {C : Type} `{ArFileLike C}
    (self : ArInfo C) :
  fields_fit self ->
  ((length (name self) <= 16)%nat -> is_ascii (name self) ->
   exists b, tobuf self BSD_FORMAT ENCODING = (Return (VBytes b), self)
             /\ length b = 60%nat)
  /\ ((16 < length (name self))%nat ->
      Z.of_nat (length (name self)) < 10 ^ 13 ->
      exists b, tobuf self BSD_FORMAT ENCODING
                = (Return (VBytes b), set_inline_name self true)
                /\ length b = 60%nat)
  /\ ((length (name self) <= 15)%nat -> is_ascii (name self) ->
      exists b, tobuf self GNU_FORMAT ENCODING = (Return (VBytes b), self)
                /\ length b = 60%nat)
  /\ (forall (parent parent' : C) (offset : Z),
         (15 < length (name self))%nat ->
         _parent self = Some parent ->
         save_filename parent (name self) = (Return offset, parent') ->
         0 <= offset < 10 ^ 15 ->
         exists b, tobuf self GNU_FORMAT ENCODING
                   = (Return (VBytes b), set_parent self (Some parent'))
                   /\ length b = 60%nat).
Proof.
  intros Hfit. unfold tobuf.
  cbn [GNU_FORMAT BSD_FORMAT Z.eqb Pos.eqb].
  unfold _create_bsd_format, _create_gnu_format.
  repeat split.
  - intros Hlen Hasc.
    replace (length (name self) <=? 16)%nat with true
      by (symmetry; apply Nat.leb_le; exact Hlen).
    destruct (encode_text_header (ljust 16 (name self)) self) as [He Hl];
      [apply ljust_fits; exact Hlen|apply is_ascii_ljust; exact Hasc
      |exact Hfit|].
    eexists. rewrite He. split; [reflexivity|exact Hl].
  - intros Hlen Hbound.
    replace (length (name self) <=? 16)%nat with false
      by (symmetry; apply Nat.leb_gt; exact Hlen).
    rewrite append_common_data_set_inline_name.
    destruct (encode_text_header
                (ljust 16 (str "#1/"
                           ++ int_str (Z.of_nat (length (name self)))))
                self) as [He Hl];
      [apply (length_extended_token _ _ 13); simpl; lia
      |apply is_ascii_extended_token; [repeat constructor|lia]
      |exact Hfit|].
    eexists. rewrite He. split; [reflexivity|exact Hl].
  - intros Hlen Hasc.
    replace (length (name self) <=? 15)%nat with true
      by (symmetry; apply Nat.leb_le; exact Hlen).
    destruct (encode_text_header (ljust 16 (name self ++ [SLASH])) self)
      as [He Hl];
      [apply ljust_fits; rewrite length_app; simpl; lia
      |apply is_ascii_ljust, Forall_app; split;
       [exact Hasc|repeat constructor]
      |exact Hfit|].
    eexists. rewrite He. split; [reflexivity|exact Hl].
  - intros parent parent' offset Hlen Hp Hsave Hoff.
    replace (length (name self) <=? 15)%nat with false
      by (symmetry; apply Nat.leb_gt; exact Hlen).
    rewrite Hp, Hsave, append_common_data_set_parent.
    destruct (encode_text_header (ljust 16 (SLASH :: int_str offset)) self)
      as [He Hl];
      [apply (length_extended_token [SLASH] offset 15); simpl; lia
      |apply (is_ascii_extended_token [SLASH] offset);
       [repeat constructor|lia]
      |exact Hfit|].
    eexists. rewrite He. split; [reflexivity|exact Hl].
Qed.

Lemma tobuf_writes_60_bytes_when_columns_fit_witness :
  fields_fit Samples.hello /\
  (length (name Samples.hello) <= 16)%nat /\ is_ascii (name Samples.hello) /\
  exists b, tobuf Samples.hello BSD_FORMAT ENCODING
            = (Return (VBytes b), Samples.hello) /\ length b = 60%nat.
Proof.
  assert (Hfit : fields_fit Samples.hello).
  { unfold fields_fit. vm_compute. intuition discriminate. }
  assert (Hlen : (length (name Samples.hello) <= 16)%nat)
    by (vm_compute; lia).
  assert (Hasc : is_ascii (name Samples.hello))
    by (repeat constructor).
  split; [exact Hfit|]. split; [exact Hlen|]. split; [exact Hasc|].
  exact (proj1 (tobuf_writes_60_bytes_when_columns_fit Samples.hello Hfit)
               Hlen Hasc).
Defined.

(** ** The terminator check *)

Lemma pystr_eqb_eq (a b : pystr) : pystr_eqb a b = true <-> a = b.
Proof.
  revert b. induction a as [|x a IH]; intros [|y b]; simpl;
    try (split; [discriminate|congruence]); [tauto|].
  rewrite andb_true_iff, N.eqb_eq, IH.
  split; [intros [-> ->]; reflexivity|intros E; inversion E; auto].
Qed.

Lemma map_to_N_injective (a b : list byte) :
  List.map Byte.to_N a = List.map Byte.to_N b -> a = b.
Proof.
  revert b. induction a as [|x a IH]; intros [|y b] E;
    try discriminate; [reflexivity|].
  inversion E as [[Hx Ht]]. f_equal; [|apply IH; exact Ht].
  rewrite <- (byte_of_N_to_N x), <- (byte_of_N_to_N y), Hx. reflexivity.
Qed.

Lemma slice_last_two {A} (s : list A) :
  length s = 60%nat -> slice s 58 60 = skipn 58 s.
Proof.
  intros Hs. unfold slice.
  change 58 with (Z.of_nat 58). change 60 with (Z.of_nat 60).
  rewrite !clamp_index_in_range by lia.
  apply firstn_all2. rewrite length_skipn. lia.
Qed.

(** C4 as stated fails on sixty blanks: the buffer has 60 bytes, its
    last two are not [0x60 0x0A], and [frombuf] raises on the [mtime]
    column, which it reads before it looks at the terminator. *)
Lemma frombuf_blank_header_raises_numeric_field :
  length Samples.blank_header = 60%nat /\
  skipn 58 Samples.blank_header <> TERMINATOR_BYTES /\
  frombuf (VBytes Samples.blank_header) (None : option pystr) ENCODING
  = Raise (HeaderError (InvalidNumericField (str "            ") "mtime")) /\
  frombuf (VBytes Samples.blank_header) (None : option pystr) ENCODING
  <> Raise (HeaderError InvalidTerminator).
Proof.
  split; [reflexivity|]. split; [vm_compute; discriminate|].
  split; [vm_compute; reflexivity|vm_compute; discriminate].
Qed.

(** C4 as amended: a 60-byte buffer whose last two bytes are not
    [0x60 0x0A] is never accepted.  [frombuf] raises the bad-terminator
    [HeaderError] when the buffer decodes to 60 characters whose five
    numeric columns are readable; before that it raises
    [UnicodeDecodeError] on bytes that are not UTF-8, the too-short
    [HeaderError] when the bytes decode to fewer than 60 characters, and
    the invalid-numeric-field [HeaderError] on the first column that is
    not readable. *)
Theorem frombuf_rejects_bad_terminator {C : Type} `{ArFileLike C}
    (buf : list byte) (arfile : option C) :
  length buf = 60%nat -> skipn 58 buf <> TERMINATOR_BYTES ->
  (frombuf (VBytes buf) arfile ENCODING = Raise UnicodeDecodeError
   \/ frombuf (VBytes buf) arfile ENCODING = Raise (HeaderError BufTooShort)
   \/ (exists value field,
          frombuf (VBytes buf) arfile ENCODING
          = Raise (HeaderError (InvalidNumericField value field)))
   \/ frombuf (VBytes buf) arfile ENCODING
      = Raise (HeaderError InvalidTerminator))
  /\ (forall text : pystr,
         Utf8.decode buf = Some text -> length text = 60%nat ->
         numeric_fields_readable text = true ->
         frombuf (VBytes buf) arfile ENCODING
         = Raise (HeaderError InvalidTerminator)).
Proof.
  intros Hlen Hterm.
  assert (Hbad : forall text, Utf8.decode buf = Some text ->
                              (length text <? 60)%nat = false ->
                              pystr_eqb (slice text 58 60) TERMINATOR = false).
  { intros text Hd Hl. apply Nat.ltb_ge in Hl.
    destruct (decode_length_bound (S (length buf)) buf text
                ltac:(lia) Hd) as [Hle Heq].
    assert (Ht : length text = 60%nat) by lia.
    rewrite slice_last_two by exact Ht.
    destruct (pystr_eqb (skipn 58 text) TERMINATOR) eqn:E; [|reflexivity].
    exfalso. apply Hterm. apply pystr_eqb_eq in E.
    rewrite (Heq ltac:(lia)), skipn_map in E.
    apply map_to_N_injective. exact E. }
  unfold frombuf, frombuf_info_obj, decode_bytes, parse_int.
  cbn [codec_decode ENCODING].
  split.
  - destruct (Utf8.decode buf) as [text|] eqn:Hd; cbn [bind]; [|auto].
    destruct (length text <? 60)%nat eqn:Hl; cbn [bind]; [auto|].
    right. right.
    numeric_columns text ltac:(left; eauto).
    right. rewrite (Hbad text eq_refl Hl). reflexivity.
  - intros text Hd Ht Hread. rewrite Hd. cbn [bind].
    assert (Hl : (length text <? 60)%nat = false)
      by (apply Nat.ltb_ge; lia).
    rewrite Hl. unfold numeric_fields_readable in Hread.
    numeric_columns text discriminate.
    rewrite (Hbad text Hd Hl). reflexivity.
Qed.

Lemma frombuf_rejects_bad_terminator_witness :
  length Samples.hello_unterminated = 60%nat /\
  skipn 58 Samples.hello_unterminated <> TERMINATOR_BYTES /\
  frombuf (VBytes Samples.hello_unterminated) (None : option pystr) ENCODING
  = Raise (HeaderError InvalidTerminator).
Proof.
  assert (Hterm : skipn 58 Samples.hello_unterminated <> TERMINATOR_BYTES)
    by (vm_compute; discriminate).
  split; [reflexivity|]. split; [exact Hterm|].
  apply (proj2 (frombuf_rejects_bad_terminator
                  Samples.hello_unterminated None eq_refl Hterm)
               (List.map Byte.to_N Samples.hello_unterminated));
    vm_compute; reflexivity.
Defined.

(** ** The name of a decoded record *)

Lemma startswith_slash_not_bsd (s : pystr) :
  startswith (str "/") s = true -> startswith (str "#1/") s = false.
Proof.
  destruct s as [|c s]; [discriminate|].
  cbn [str list_ascii_of_string List.map startswith].
  rewrite andb_true_r. intros E. apply N.eqb_eq in E. subst c. reflexivity.
Qed.


(** With the 20 characters of the name behind the header, the same
    token is resolved, and nothing beyond the name is taken. *)
Example frombuf_bsd_token_with_payload :
  exists info,
    frombuf_info_obj (VBytes Samples.bsd_header_with_name)
                     (None : option pystr) ENCODING = Return info
    /\ name info = Samples.name20
    /\ _inline_filename info = Some true /\ _inline_name info = false.
Proof.
  eexists. split; [vm_compute; reflexivity|]. repeat split.
Qed.



(** ** An empty name in GNU format *)

(** The steps of [frombuf] on a header whose name column holds a lone
    slash. *)
Lemma frombuf_lone_slash {C : Type} `{ArFileLike C}
    (buf : list byte) (text : pystr) (arfile : option C) :
  Utf8.decode buf = Some text -> length text = 60%nat ->
  numeric_fields_readable text = true ->
  slice text 58 60 = TERMINATOR ->
  rstrip (slice text 0 16) = [SLASH] ->
  frombuf (VBytes buf) arfile ENCODING
  = Raise (HeaderError (InvalidFilename [SLASH])).
Proof.
  intros Hd Hl Hread Hterm Hname.
  unfold frombuf, frombuf_info_obj, decode_bytes, parse_int.
  cbn [codec_decode ENCODING]. rewrite Hd. cbn [bind].
  replace (length text <? 60)%nat with false
    by (symmetry; apply Nat.ltb_ge; lia).
  unfold numeric_fields_readable in Hread.
  numeric_columns text discriminate.
  rewrite Hterm, Hname. reflexivity.
Qed.

(** C10 as stated fails on [ArInfo('')] with [mtime = 10 ** 12]: the
    header is written, but its 61 characters put the terminator one
    place too far, and [frombuf] raises the bad-terminator error, not the
    invalid-filename one. *)
Lemma empty_name_wide_mtime_raises_bad_terminator :
  name Samples.late_unnamed = [] /\ non_negative Samples.late_unnamed /\
  exists b,
    returned_bytes (tobuf Samples.late_unnamed GNU_FORMAT ENCODING) = Some b
    /\ firstn 16 b = list_byte_of_string "/               "
    /\ frombuf (VBytes b) (None : option pystr) ENCODING
       = Raise (HeaderError InvalidTerminator).
Proof.
  split; [reflexivity|].
  split; [unfold non_negative; vm_compute; intuition discriminate|].
  eexists. split; [vm_compute; reflexivity|].
  split; vm_compute; reflexivity.
Qed.

(** C10 as amended: for a record with an empty name whose numeric
    attributes are non-negative and fit their columns, and whose size is
    written with digits that base 8 has, GNU-format [tobuf] succeeds: it
    writes 60 bytes, the name column being a slash and fifteen blanks.
    [frombuf] on those bytes raises the invalid-filename [HeaderError]:
    the column is taken for a [/<offset>] token with no digit. *)
Theorem empty_name_gnu_header_is_not_decodable {C : Type} `{ArFileLike C}
    (self : ArInfo C) (arfile : option C) :
  name self = [] -> fields_fit self ->
  size_text_readable_in_octal (size self) ->
  exists b : list byte,
    tobuf self GNU_FORMAT ENCODING = (Return (VBytes b), self)
    /\ length b = 60%nat
    /\ firstn 16 b = list_byte_of_string "/               "
    /\ frombuf (VBytes b) arfile ENCODING
       = Raise (HeaderError (InvalidFilename (str "/"))).
Proof.
  intros Hname Hfit (v & Hsize).
  pose proof Hfit as (Hm & Hu & Hg & Ho & Hs).
  destruct (encode_text_header (ljust 16 [SLASH]) self eq_refl
              ltac:(repeat constructor) Hfit) as [He Hl].
  exists (List.map Utf8.byte_of_N
            (ljust 16 [SLASH] ++ _append_common_data self)).
  split.
  { unfold tobuf. cbn [GNU_FORMAT BSD_FORMAT Z.eqb Pos.eqb].
    unfold _create_gnu_format. rewrite Hname. cbn [length Nat.leb app].
    rewrite He. reflexivity. }
  split; [exact Hl|].
  split; [rewrite map_app; reflexivity|].
  assert (Hcols := header_columns
            (ljust 16 [SLASH])
            (format_d 12 (mtime self)) (format_d 6 (uid self))
            (format_d 6 (gid self)) (format_o 8 (mode self))
            (format_d 10 (size self)) TERMINATOR
            eq_refl
            (length_format_d 12 _ ltac:(lia) Hm)
            (length_format_d 6 _ ltac:(lia) Hu)
            (length_format_d 6 _ ltac:(lia) Hg)
            (length_format_o 8 _ ltac:(lia) Ho)
            (length_format_d 10 _ ltac:(lia) Hs)
            eq_refl).
  cbn zeta in Hcols. rewrite <- append_common_data_columns in Hcols.
  destruct Hcols as (L & S0 & S1 & S2 & S3 & S4 & S5 & S6).
  apply (frombuf_lone_slash _
           (ljust 16 [SLASH] ++ _append_common_data self)).
  - apply decode_ascii. apply Forall_app. split; [repeat constructor|].
    apply is_ascii_append_common_data, fields_fit_non_negative, Hfit.
  - exact L.
  - unfold numeric_fields_readable. rewrite S1, S2, S3, S4, S5.
    unfold format_d at 1 2 3, format_o.
    rewrite !(py_int_ljust_int_to_base 10) by lia.
    rewrite (py_int_ljust_int_to_base 8) by lia.
    rewrite Hsize. reflexivity.
  - exact S6.
  - rewrite S0. reflexivity.
Qed.

Lemma empty_name_gnu_header_is_not_decodable_witness :
  name (__init__ (C:=pystr) []) = [] /\
  fields_fit (__init__ (C:=pystr) []) /\
  size_text_readable_in_octal (size (__init__ (C:=pystr) [])) /\
  exists b : list byte,
    tobuf (__init__ (C:=pystr) []) GNU_FORMAT ENCODING
    = (Return (VBytes b), __init__ [])
    /\ length b = 60%nat
    /\ firstn 16 b = list_byte_of_string "/               "
    /\ frombuf (VBytes b) (None : option pystr) ENCODING
       = Raise (HeaderError (InvalidFilename (str "/"))).
Proof.
  assert (Hfit : fields_fit (__init__ (C:=pystr) [])).
  { unfold fields_fit. vm_compute. intuition discriminate. }
  assert (Hoct : size_text_readable_in_octal (size (__init__ (C:=pystr) []))).
  { exists 0. vm_compute. reflexivity. }
  split; [reflexivity|]. split; [exact Hfit|]. split; [exact Hoct|].
  exact (empty_name_gnu_header_is_not_decodable
           (__init__ (C:=pystr) []) None eq_refl Hfit Hoct).
Defined.

(** * Further properties of the codec *)

(** ** More on text and on the UTF-8 codec *)

Section MoreTextFacts.

Lemma lstrip_blanks (k : nat) (t : pystr) :
  lstrip (repeat SPACE k ++ t) = lstrip t.
Proof. induction k as [|k IH]; [reflexivity|exact IH]. Qed.

(** Trailing blanks do not count for [rstrip]. *)
Lemma rstrip_app_blanks (s : pystr) (k : nat) :
  rstrip (s ++ repeat SPACE k) = rstrip s.
Proof.
  unfold rstrip. rewrite rev_app_distr, rev_repeat, lstrip_blanks.
  reflexivity.
Qed.

Lemma rstrip_last (s : pystr) (c : char) :
  isspace c = false -> rstrip (s ++ [c]) = s ++ [c].
Proof.
  intros Hc. unfold rstrip. rewrite rev_app_distr. cbn [rev app lstrip].
  rewrite Hc. cbn [rev]. rewrite rev_involutive. reflexivity.
Qed.

Lemma rstrip_ljust (w : nat) (s : pystr) :
  rstrip (ljust w s) = rstrip s.
Proof. apply rstrip_app_blanks. Qed.

Lemma isspace_digit (base : N) (c : char) :
  (base <= 10)%N -> digit_of base c -> isspace c = false.
Proof.
  unfold digit_of, isspace. intros Hb Hc.
  repeat match goal with
         | |- context [(c =? ?k)%N] =>
             replace (c =? k)%N with false by (symmetry; apply N.eqb_neq; lia)
         end.
  replace (c <=? 13)%N with false by (symmetry; apply N.leb_gt; lia).
  replace (c <=? 32)%N with false by (symmetry; apply N.leb_gt; lia).
  replace (8192 <=? c)%N with false by (symmetry; apply N.leb_gt; lia).
  rewrite !andb_false_r. reflexivity.
Qed.

(** The text of a non-negative number has no blank at its end. *)
Lemma rstrip_app_int_str (prefix : pystr) (n : Z) :
  0 <= n -> rstrip (prefix ++ int_str n) = prefix ++ int_str n.
Proof.
  intros Hn. unfold int_str, int_to_base.
  replace (n <? 0) with false by (symmetry; apply Z.ltb_ge; lia).
  destruct (to_base_spec 10 ltac:(lia) ltac:(lia) (Z.to_N n))
    as (ds & Hds & Hne & Hall & _).
  rewrite Hds. destruct (exists_last Hne) as (ds' & d & ->).
  rewrite app_assoc. apply rstrip_last.
  apply Forall_app in Hall. destruct Hall as [_ Hd].
  inversion Hd; subst. apply (isspace_digit 10); [lia|assumption].
Qed.

Lemma encode_app (a b : pystr) :
  Utf8.encode (a ++ b)
  = match Utf8.encode a, Utf8.encode b with
    | Some x, Some y => Some (x ++ y)
    | _, _ => None
    end.
Proof.
  induction a as [|c a IH]; cbn [app Utf8.encode].
  - destruct (Utf8.encode b); reflexivity.
  - rewrite IH. destruct (Utf8.encode_char c) as [bs|]; [|reflexivity].
    destruct (Utf8.encode a); [|reflexivity].
    destruct (Utf8.encode b); [|reflexivity].
    rewrite app_assoc. reflexivity.
Qed.

Lemma length_encode_char (c : char) (bs : list byte) :
  Utf8.encode_char c = Some bs -> (1 <= length bs)%nat.
Proof.
  unfold Utf8.encode_char. intros E.
  repeat match type of E with
         | (if ?b then _ else _) = _ => destruct b
         end;
    inversion E; simpl; lia.
Qed.

(** UTF-8 gives every character at least one byte. *)
Lemma length_encode_ge (s : pystr) (b : list byte) :
  Utf8.encode s = Some b -> (length s <= length b)%nat.
Proof.
  revert b. induction s as [|c s IH]; intros b E; [simpl; lia|].
  cbn [Utf8.encode] in E.
  destruct (Utf8.encode_char c) as [bs|] eqn:Ec; [|discriminate].
  destruct (Utf8.encode s) as [rest|]; [|discriminate].
  inversion E; subst. apply length_encode_char in Ec.
  specialize (IH rest eq_refl). rewrite length_app. simpl. lia.
Qed.

Lemma encode_surrogate (s : pystr) (c : char) :
  In c s -> is_surrogate c -> Utf8.encode s = None.
Proof.
  intros Hin Hc. induction s as [|d s IH]; [contradiction|].
  cbn [Utf8.encode]. destruct Hin as [->|Hin].
  - unfold is_surrogate in Hc. unfold Utf8.encode_char.
    replace (c <? 128)%N with false by (symmetry; apply N.ltb_ge; lia).
    replace (c <? 2048)%N with false by (symmetry; apply N.ltb_ge; lia).
    replace (c <? 65536)%N with true by (symmetry; apply N.ltb_lt; lia).
    replace ((55296 <=? c) && (c <=? 57343))%N with true; [reflexivity|].
    symmetry. apply andb_true_iff. split; apply N.leb_le; lia.
  - rewrite (IH Hin). destruct (Utf8.encode_char d); reflexivity.
Qed.

(** Decoding after an ASCII prefix. *)
Lemma decode_app_ascii (a : pystr) (bs : list byte) :
  is_ascii a ->
  Utf8.decode (List.map Utf8.byte_of_N a ++ bs)
  = option_map (app a) (Utf8.decode bs).
Proof.
  induction 1 as [|c a Hc Ha IH]; cbn [List.map app].
  - destruct (Utf8.decode bs); reflexivity.
  - rewrite decode_cons, IH, to_N_byte_of_N by
      (rewrite ?to_N_byte_of_N by lia; try apply N.ltb_lt; lia).
    destruct (Utf8.decode bs); reflexivity.
Qed.

End MoreTextFacts.

(** ** The steps of [frombuf] on a readable header *)

Section DecodeSteps.

Context {C : Type} `{ArFileLike C}.

Variables (buf : list byte) (text : pystr) (arfile : option C).
Variables (m u g o s : Z).

Hypothesis decoded : Utf8.decode buf = Some text.
Hypothesis long_enough : (60 <= length text)%nat.
Hypothesis mtime_column : py_int (slice text 16 28) 10 = Some m.
Hypothesis uid_column : py_int (slice text 28 34) 10 = Some u.
Hypothesis gid_column : py_int (slice text 34 40) 10 = Some g.
Hypothesis mode_column : py_int (slice text 40 48) 8 = Some o.
Hypothesis size_column : py_int (slice text 48 58) 8 = Some s.
Hypothesis terminated : slice text 58 60 = TERMINATOR.

(** Brings [frombuf_info_obj] to the point where it looks at the name. *)
Ltac reach_name :=
  unfold frombuf_info_obj, decode_bytes, parse_int;
  cbn [codec_decode ENCODING]; rewrite decoded; cbn [bind];
  replace (length text <? 60)%nat with false
    by (symmetry; apply Nat.ltb_ge; exact long_enough);
  rewrite mtime_column, uid_column, gid_column, mode_column, size_column;
  cbn [bind]; rewrite terminated;
  change (negb (pystr_eqb TERMINATOR TERMINATOR)) with false; cbv iota.

(** A name column that is no token is the name. *)
Lemma frombuf_info_obj_plain :
  is_token (rstrip (slice text 0 16)) = false ->
  frombuf_info_obj (VBytes buf) arfile ENCODING
  = Return (built_record (rstrip (slice text 0 16)) m u g o s arfile).
Proof.
  intros Hplain. reach_name. unfold is_token in Hplain.
  rewrite Hplain. reflexivity.
Qed.

(** A name column [#1/...]. *)
Lemma frombuf_info_obj_bsd :
  startswith (str "#1/") (rstrip (slice text 0 16)) = true ->
  frombuf_info_obj (VBytes buf) arfile ENCODING
  = match py_int (slice_from (rstrip (slice text 0 16)) 3) 10 with
    | None =>
        Raise (HeaderError (InvalidFilename (rstrip (slice text 0 16))))
    | Some length' =>
        Return
          (if Z.of_nat (length text) >=? 60 + length' then
             set_name
               (set_inline_filename
                  (built_record (rstrip (slice text 0 16)) m u g o s arfile)
                  true)
               (slice text 60 (60 + length'))
           else
             set_inline_filename
               (built_record (rstrip (slice text 0 16)) m u g o s arfile)
               true)
    end.
Proof.
  intros Hbsd. reach_name. rewrite Hbsd, orb_true_r.
  cbn [get_inline_filename set_inline_filename _inline_filename bind].
  destruct (py_int (slice_from (rstrip (slice text 0 16)) 3) 10)
    as [len|]; [|reflexivity].
  destruct (Z.of_nat (length text) >=? 60 + len); reflexivity.
Qed.

(** A name column [/...]. *)
Lemma frombuf_info_obj_gnu :
  startswith (str "/") (rstrip (slice text 0 16)) = true ->
  frombuf_info_obj (VBytes buf) arfile ENCODING
  = match py_int (slice_from (rstrip (slice text 0 16)) 1) 10 with
    | None =>
        Raise (HeaderError (InvalidFilename (rstrip (slice text 0 16))))
    | Some offset =>
        match arfile with
        | None =>
            Raise (HeaderError (NeedArFile (rstrip (slice text 0 16))))
        | Some a =>
            fname <- read_filename a offset ;;
            Return
              (set_name
                 (set_inline_filename
                    (built_record (rstrip (slice text 0 16)) m u g o s
                                  arfile)
                    false)
                 fname)
        end
    end.
Proof.
  intros Hgnu. reach_name.
  rewrite Hgnu, (startswith_slash_not_bsd _ Hgnu). cbn [orb].
  cbn [get_inline_filename set_inline_filename _inline_filename bind negb].
  destruct (py_int (slice_from (rstrip (slice text 0 16)) 1) 10)
    as [offset|]; [|reflexivity].
  destruct arfile as [a|]; reflexivity.
Qed.

End DecodeSteps.

(** ** Reading back what [tobuf] writes *)

Section ReadBack.

Context {C : Type} `{ArFileLike C}.

Lemma slice_app_l {A} (a c : list A) (i j : nat) :
  (i <= j)%nat -> (j <= length a)%nat ->
  slice (a ++ c) (Z.of_nat i) (Z.of_nat j) = slice a (Z.of_nat i) (Z.of_nat j).
Proof.
  intros Hij Hj. unfold slice.
  rewrite !clamp_index_in_range by (rewrite ?length_app; lia).
  rewrite skipn_app, firstn_app, length_skipn.
  replace (j - i - (length a - i))%nat with 0%nat by lia.
  replace (i - length a)%nat with 0%nat by lia.
  cbn [firstn]. apply app_nil_r.
Qed.

(** The columns of a header written for attributes that fit, whatever
    follows the header. *)
Lemma written_header_columns (field rest : pystr) (self : ArInfo C) :
  length field = 16%nat -> fields_fit self ->
  let text := (field ++ _append_common_data self) ++ rest in
  length (field ++ _append_common_data self) = 60%nat /\
  slice text 0 16 = field /\
  py_int (slice text 16 28) 10 = Some (mtime self) /\
  py_int (slice text 28 34) 10 = Some (uid self) /\
  py_int (slice text 34 40) 10 = Some (gid self) /\
  py_int (slice text 40 48) 8 = Some (mode self) /\
  slice text 48 58 = format_d 10 (size self) /\
  slice text 58 60 = TERMINATOR.
Proof.
  intros Hfield Hfit text. subst text.
  pose proof Hfit as (Hm & Hu & Hg & Ho & Hs).
  assert (Hcols := header_columns
            field
            (format_d 12 (mtime self)) (format_d 6 (uid self))
            (format_d 6 (gid self)) (format_o 8 (mode self))
            (format_d 10 (size self)) TERMINATOR
            Hfield
            (length_format_d 12 _ ltac:(lia) Hm)
            (length_format_d 6 _ ltac:(lia) Hu)
            (length_format_d 6 _ ltac:(lia) Hg)
            (length_format_o 8 _ ltac:(lia) Ho)
            (length_format_d 10 _ ltac:(lia) Hs)
            eq_refl).
  cbn zeta in Hcols. rewrite <- append_common_data_columns in Hcols.
  destruct Hcols as (L & S0 & S1 & S2 & S3 & S4 & S5 & S6).
  split; [exact L|].
  set (header := field ++ _append_common_data self) in *.
  replace (slice (header ++ rest) 0 16) with field
    by (rewrite <- S0; symmetry; apply (slice_app_l _ rest 0 16); lia).
  replace (slice (header ++ rest) 16 28) with (format_d 12 (mtime self))
    by (rewrite <- S1; symmetry; apply (slice_app_l _ rest 16 28); lia).
  replace (slice (header ++ rest) 28 34) with (format_d 6 (uid self))
    by (rewrite <- S2; symmetry; apply (slice_app_l _ rest 28 34); lia).
  replace (slice (header ++ rest) 34 40) with (format_d 6 (gid self))
    by (rewrite <- S3; symmetry; apply (slice_app_l _ rest 34 40); lia).
  replace (slice (header ++ rest) 40 48) with (format_o 8 (mode self))
    by (rewrite <- S4; symmetry; apply (slice_app_l _ rest 40 48); lia).
  replace (slice (header ++ rest) 48 58) with (format_d 10 (size self))
    by (rewrite <- S5; symmetry; apply (slice_app_l _ rest 48 58); lia).
  replace (slice (header ++ rest) 58 60) with TERMINATOR
    by (rewrite <- S6; symmetry; apply (slice_app_l _ rest 58 60); lia).
  unfold format_d at 1 2 3, format_o.
  rewrite !(py_int_ljust_int_to_base 10), (py_int_ljust_int_to_base 8)
    by lia.
  repeat split.
Qed.

End ReadBack.

(** ** The size column, written in base 10 and read in base 8 *)

(** A size column that [int] cannot read in base 8 is reported, the
    columns before it being readable. *)
Lemma frombuf_info_obj_size_unreadable {C : Type} `{ArFileLike C}
    (buf : list byte) (text : pystr) (arfile : option C) (m u g o : Z) :
  Utf8.decode buf = Some text -> (60 <= length text)%nat ->
  py_int (slice text 16 28) 10 = Some m ->
  py_int (slice text 28 34) 10 = Some u ->
  py_int (slice text 34 40) 10 = Some g ->
  py_int (slice text 40 48) 8 = Some o ->
  py_int (slice text 48 58) 8 = None ->
  frombuf_info_obj (VBytes buf) arfile ENCODING
  = Raise (HeaderError (InvalidNumericField (slice text 48 58) "size")).
Proof.
  intros Hd Hlen Em Eu Eg Eo Es.
  unfold frombuf_info_obj, decode_bytes, parse_int.
  cbn [codec_decode ENCODING]. rewrite Hd. cbn [bind].
  replace (length text <? 60)%nat with false
    by (symmetry; apply Nat.ltb_ge; exact Hlen).
  rewrite Em, Eu, Eg, Eo, Es. reflexivity.
Qed.

(** The text of a size below 8 reads as that size in base 8. *)
Lemma small_size_text (z : Z) :
  0 <= z < 8 -> py_int (format_d 10 z) 8 = Some z.
Proof.
  intros Hz.
  assert (E : z = 0 \/ z = 1 \/ z = 2 \/ z = 3 \/ z = 4 \/ z = 5 \/ z = 6
              \/ z = 7) by lia.
  repeat (destruct E as [E|E]; [subst z; vm_compute; reflexivity|]).
  subst z. vm_compute. reflexivity.
Qed.

(** ** Round trips through [tobuf] and [frombuf] *)



(** X2: a record whose numeric attributes are non-negative and fit
    their columns ([mtime] below 10^12, [uid] and [gid] below 10^6,
    [mode] below 8^8, [size] below 10^10) and whose ASCII name has at
    most 16 characters and, without the whitespace at its end, does not
    read as a token, is written in BSD format as bytes on which [frombuf]
    does one of two things.  When base 8 can read the decimal text of
    the size, it builds a record with the same [mtime], [uid], [gid] and
    [mode], the container it was given, the name without the whitespace
    at its end (the name itself when it ends with none), and as size
    what base 8 reads.  When base 8 cannot (a digit 8 or 9), it raises
    the invalid-numeric-field [HeaderError] on the size column.  A size
    below 8 is read as itself. *)
Theorem bsd_inline_name_reads_back {C : Type} `{ArFileLike C}
    (self : ArInfo C) (arfile : option C) :
  fields_fit self -> is_ascii (name self) ->
  (length (name self) <= 16)%nat ->
  is_token (rstrip (name self)) = false ->
  exists b : list byte,
    tobuf self BSD_FORMAT ENCODING = (Return (VBytes b), self)
    /\ frombuf_info_obj (VBytes b) arfile ENCODING
       = match py_int (format_d 10 (size self)) 8 with
         | Some v =>
             Return (built_record (rstrip (name self)) (mtime self)
                                  (uid self) (gid self) (mode self) v
                                  arfile)
         | None =>
             Raise (HeaderError
                      (InvalidNumericField (format_d 10 (size self)) "size"))
         end
    /\ (size self < 8 ->
        py_int (format_d 10 (size self)) 8 = Some (size self)).
Proof.
  intros Hfit Hasc Hlen Htoken.
  set (field := ljust 16 (name self)).
  assert (Hfield : length field = 16%nat) by (apply ljust_fits; exact Hlen).
  assert (Hfasc : is_ascii field) by (apply is_ascii_ljust; exact Hasc).
  destruct (encode_text_header field self Hfield Hfasc Hfit) as [He _].
  destruct (written_header_columns field [] self Hfield Hfit)
    as (L & S0 & S1 & S2 & S3 & S4 & S5 & S6).
  rewrite app_nil_r in *.
  set (header := field ++ _append_common_data self) in *.
  assert (Hdec : Utf8.decode (List.map Utf8.byte_of_N header) = Some header).
  { apply decode_ascii, Forall_app. split; [exact Hfasc|].
    apply is_ascii_append_common_data, fields_fit_non_negative, Hfit. }
  assert (Hname : rstrip (slice header 0 16) = rstrip (name self)).
  { rewrite S0. unfold field. apply rstrip_ljust. }
  exists (List.map Utf8.byte_of_N header).
  split.
  { unfold tobuf. cbn [GNU_FORMAT BSD_FORMAT Z.eqb Pos.eqb].
    unfold _create_bsd_format.
    replace (length (name self) <=? 16)%nat with true
      by (symmetry; apply Nat.leb_le; exact Hlen).
    fold field header. rewrite He. reflexivity. }
  split.
  - destruct (py_int (format_d 10 (size self)) 8) as [v|] eqn:Hsize.
    + rewrite (frombuf_info_obj_plain _ header arfile (mtime self)
                 (uid self) (gid self) (mode self) v Hdec);
        try assumption.
      * rewrite Hname. reflexivity.
      * lia.
      * rewrite S5. exact Hsize.
      * rewrite Hname. exact Htoken.
    + rewrite (frombuf_info_obj_size_unreadable _ header arfile
                 (mtime self) (uid self) (gid self) (mode self) Hdec);
        try assumption.
      * rewrite S5. reflexivity.
      * lia.
      * rewrite S5. exact Hsize.
  - intros Hsmall. apply small_size_text.
    destruct Hfit as (_ & _ & _ & _ & Hs). lia.
Qed.

Lemma bsd_inline_name_reads_back_witness :
  fields_fit Cases.notes /\ is_ascii (name Cases.notes) /\
  exists b : list byte,
    tobuf Cases.notes BSD_FORMAT ENCODING = (Return (VBytes b), Cases.notes)
    /\ frombuf_info_obj (VBytes b) (None : option pystr) ENCODING
       = Return (built_record (str "notes.txt") 1700000000 1000 100 493 7
                              None).
Proof.
  assert (Hfit : fields_fit Cases.notes).
  { unfold fields_fit. vm_compute. intuition discriminate. }
  assert (Hasc : is_ascii (name Cases.notes)) by (repeat constructor).
  split; [exact Hfit|]. split; [exact Hasc|].
  destruct (bsd_inline_name_reads_back
              Cases.notes None Hfit Hasc ltac:(vm_compute; lia) eq_refl)
    as (b & Hto & Hfrom & _).
  exists b. split; [exact Hto|]. rewrite Hfrom. vm_compute. reflexivity.
Defined.

(** ** UTF-8 round trip *)

Section Utf8RoundTrip.

(** Settles the comparisons of a goal by arithmetic. *)
Ltac settle_comparisons :=
  repeat match goal with
         | |- context [(?a <? ?b)%N] =>
             destruct (N.ltb_spec a b); try lia
         | |- context [(?a <=? ?b)%N] =>
             destruct (N.leb_spec a b); try lia
         end.

Lemma continuation_bits (r : N) : (r < 64 -> (128 + r) mod 64 = r)%N.
Proof.
  intros Hr. symmetry. apply (N.mod_unique _ _ 2); lia.
Qed.

(** The six-bit groups of a code point. *)
Lemma six_bit_groups (c : N) :
  (c = 64 * (c / 64) + c mod 64 /\ c mod 64 < 64 /\
   c / 64 = 64 * (c / 4096) + (c / 64) mod 64 /\ (c / 64) mod 64 < 64 /\
   c / 4096 = 64 * (c / 262144) + (c / 4096) mod 64 /\
   (c / 4096) mod 64 < 64)%N.
Proof.
  assert (E1 : (c / 4096 = c / 64 / 64)%N)
    by (rewrite N.Div0.div_div; reflexivity).
  assert (E2 : (c / 262144 = c / 4096 / 64)%N)
    by (rewrite N.Div0.div_div; reflexivity).
  rewrite E2, E1.
  repeat split; try (apply N.div_mod; lia); apply N.mod_lt; lia.
Qed.

Lemma decode_encode_char (c : char) (bs rest : list byte) :
  Utf8.encode_char c = Some bs ->
  Utf8.decode (bs ++ rest) = option_map (cons c) (Utf8.decode rest).
Proof.
  unfold Utf8.encode_char. intros E.
  destruct (six_bit_groups c) as (D1 & R1 & D2 & R2 & D3 & R3).
  remember (c mod 64)%N as r0 eqn:Er0.
  remember ((c / 64) mod 64)%N as r1 eqn:Er1.
  remember ((c / 4096) mod 64)%N as r2 eqn:Er2.
  remember (c / 64)%N as q1 eqn:Eq1.
  remember (c / 4096)%N as q2 eqn:Eq2.
  remember (c / 262144)%N as q3 eqn:Eq3.
  clear Er0 Er1 Er2 Eq1 Eq2 Eq3.
  destruct (N.ltb_spec c 128).
  { injection E as <-. cbn [app].
    rewrite decode_cons by (rewrite to_N_byte_of_N by lia; apply N.ltb_lt; lia).
    rewrite to_N_byte_of_N by lia. reflexivity. }
  remember (128 + r0)%N as n0 eqn:En0.
  remember (128 + r1)%N as n1 eqn:En1.
  remember (128 + r2)%N as n2 eqn:En2.
  assert (C0 : (n0 mod 64 = r0)%N) by (subst n0; apply continuation_bits; lia).
  assert (C1 : (n1 mod 64 = r1)%N) by (subst n1; apply continuation_bits; lia).
  assert (C2 : (n2 mod 64 = r2)%N) by (subst n2; apply continuation_bits; lia).
  destruct (N.ltb_spec c 2048).
  { remember (192 + q1)%N as lead eqn:El.
    injection E as <-. cbn [app Utf8.decode].
    unfold Utf8.is_cont, Utf8.cont_bits.
    rewrite !to_N_byte_of_N by lia. rewrite C0.
    replace ((lead - 192) * 64 + r0)%N with c by lia.
    settle_comparisons. reflexivity. }
  destruct (N.ltb_spec c 65536).
  { destruct ((55296 <=? c) && (c <=? 57343))%N eqn:Hs; [discriminate|].
    remember (224 + q2)%N as lead eqn:El.
    injection E as <-. cbn [app Utf8.decode].
    unfold Utf8.is_cont, Utf8.cont_bits.
    rewrite !to_N_byte_of_N by lia. rewrite C0, C1.
    replace ((lead - 224) * 4096 + r1 * 64 + r0)%N with c by lia.
    rewrite Hs. settle_comparisons. reflexivity. }
  destruct (N.ltb_spec c 1114112); [|discriminate].
  remember (240 + q3)%N as lead eqn:El.
  injection E as <-. cbn [app Utf8.decode].
  unfold Utf8.is_cont, Utf8.cont_bits.
  rewrite !to_N_byte_of_N by lia. rewrite C0, C1, C2.
  replace ((lead - 240) * 262144 + r2 * 4096 + r1 * 64 + r0)%N with c by lia.
  settle_comparisons. reflexivity.
Qed.

(** Whatever text UTF-8 can encode is decoded back, before whatever
    follows it. *)
Lemma decode_encode_app (s : pystr) (b rest : list byte) :
  Utf8.encode s = Some b ->
  Utf8.decode (b ++ rest) = option_map (app s) (Utf8.decode rest).
Proof.
  revert b. induction s as [|c s IH]; intros b E.
  - inversion E. cbn [app]. destruct (Utf8.decode rest); reflexivity.
  - cbn [Utf8.encode] in E.
    destruct (Utf8.encode_char c) as [bs|] eqn:Ec; [|discriminate].
    destruct (Utf8.encode s) as [b'|]; [|discriminate].
    inversion E; subst. rewrite <- app_assoc.
    rewrite (decode_encode_char c bs _ Ec), (IH b' eq_refl).
    destruct (Utf8.decode rest); reflexivity.
Qed.

End Utf8RoundTrip.

(** ** Extended names, written and read back *)

Lemma slice_from_app {A} (a b : list A) (i : Z) :
  Z.of_nat (length a) = i -> slice_from (a ++ b) i = b.
Proof.
  intros Hi. subst i. unfold slice_from.
  rewrite clamp_index_in_range by (rewrite length_app; lia).
  rewrite skipn_app, skipn_all, Nat.sub_diag. reflexivity.
Qed.

Lemma py_int_int_str (n : Z) : py_int (int_str n) 10 = Some n.
Proof.
  pose proof (py_int_ljust_int_to_base 10 ltac:(lia) ltac:(lia) 0 n) as E.
  unfold ljust in E. cbn [Nat.sub repeat] in E. rewrite app_nil_r in E.
  exact E.
Qed.

(** X3: a name of more than 16 and fewer than 10^13 characters goes
    through the BSD convention.  For a record whose numeric attributes
    are non-negative and fit their columns ([mtime] below 10^12, [uid]
    and [gid] below 10^6, [mode] below 8^8, [size] below 10^10) and
    whose name UTF-8 can encode, [tobuf] writes a 60-byte header with the
    token [#1/<length>] and sets [_inline_name].  On that header,
    followed by the bytes of the name and then by any bytes that decode,
    [frombuf] does one of two things.  When base 8 can read the decimal
    text of the size, it builds a record with the name itself, character
    for character (ASCII or not), the same [mtime], [uid], [gid] and
    [mode], and as size what base 8 reads.  When base 8 cannot (a digit
    8 or 9), it raises the invalid-numeric-field [HeaderError] on the
    size column. *)
Theorem bsd_extended_name_reads_back {C : Type} `{ArFileLike C}
    (self : ArInfo C) (arfile : option C)
    (payload rest : list byte) (rest_text : pystr) :
  fields_fit self ->
  (16 < length (name self))%nat ->
  Z.of_nat (length (name self)) < 10 ^ 13 ->
  Utf8.encode (name self) = Some payload ->
  Utf8.decode rest = Some rest_text ->
  exists b : list byte,
    tobuf self BSD_FORMAT ENCODING
    = (Return (VBytes b), set_inline_name self true)
    /\ length b = 60%nat
    /\ frombuf_info_obj (VBytes (b ++ payload ++ rest)) arfile ENCODING
       = match py_int (format_d 10 (size self)) 8 with
         | Some v =>
             Return
               (set_name
                  (set_inline_filename
                     (built_record
                        (str "#1/"
                         ++ int_str (Z.of_nat (length (name self))))
                        (mtime self) (uid self) (gid self) (mode self) v
                        arfile)
                     true)
                  (name self))
         | None =>
             Raise (HeaderError
                      (InvalidNumericField (format_d 10 (size self)) "size"))
         end.
Proof.
  intros Hfit Hlen Hbound Hpayload Hrest.
  set (n := Z.of_nat (length (name self))) in *.
  set (token := str "#1/" ++ int_str n).
  set (field := ljust 16 token).
  assert (Hfield : length field = 16%nat)
    by (apply (length_extended_token _ _ 13); simpl; lia).
  assert (Hfasc : is_ascii field)
    by (apply is_ascii_extended_token; [repeat constructor|lia]).
  destruct (encode_text_header field self Hfield Hfasc Hfit) as [He Hl].
  set (header := field ++ _append_common_data self) in *.
  destruct (written_header_columns field (name self ++ rest_text) self
              Hfield Hfit) as (L & S0 & S1 & S2 & S3 & S4 & S5 & S6).
  fold header in L, S0, S1, S2, S3, S4, S5, S6.
  exists (List.map Utf8.byte_of_N header).
  split.
  { unfold tobuf. cbn [GNU_FORMAT BSD_FORMAT Z.eqb Pos.eqb].
    unfold _create_bsd_format.
    replace (length (name self) <=? 16)%nat with false
      by (symmetry; apply Nat.leb_gt; exact Hlen).
    rewrite append_common_data_set_inline_name.
    fold n token field header. rewrite He. reflexivity. }
  split; [exact Hl|].
  assert (Hname : rstrip (slice (header ++ name self ++ rest_text) 0 16)
                  = token).
  { rewrite S0. unfold field. rewrite rstrip_ljust.
    apply rstrip_app_int_str. lia. }
  assert (Hdec : Utf8.decode
                   (List.map Utf8.byte_of_N header ++ payload ++ rest)
                 = Some (header ++ name self ++ rest_text)).
  { rewrite decode_app_ascii.
    - rewrite (decode_encode_app _ _ _ Hpayload), Hrest. reflexivity.
    - apply Forall_app. split; [exact Hfasc|].
      apply is_ascii_append_common_data, fields_fit_non_negative, Hfit. }
  assert (Hlong : (60 <= length (header ++ name self ++ rest_text))%nat)
    by (rewrite length_app; lia).
  destruct (py_int (format_d 10 (size self)) 8) as [v|] eqn:Hsize.
  - rewrite (frombuf_info_obj_bsd _ _ arfile (mtime self) (uid self)
               (gid self) (mode self) v Hdec);
      try assumption.
    + rewrite Hname. unfold token at 1.
      rewrite (slice_from_app (str "#1/") (int_str n) 3 eq_refl).
      rewrite py_int_int_str.
      replace (Z.of_nat (length (header ++ name self ++ rest_text))
               >=? 60 + n) with true
        by (symmetry; apply Z.geb_le; rewrite !length_app; lia).
      replace (60 + n) with (Z.of_nat (60 + length (name self))) by lia.
      replace (slice (header ++ name self ++ rest_text) 60
                     (Z.of_nat (60 + length (name self))))
        with (name self)
        by (symmetry;
            apply (slice_block header (name self) rest_text 60
                               (60 + length (name self)) L); lia).
      reflexivity.
    + rewrite S5. exact Hsize.
    + rewrite Hname. reflexivity.
  - rewrite (frombuf_info_obj_size_unreadable _ _ arfile
               (mtime self) (uid self) (gid self) (mode self) Hdec);
      try assumption.
    + rewrite S5. reflexivity.
    + rewrite S5. exact Hsize.
Qed.

Lemma bsd_extended_name_reads_back_witness :
  fields_fit Cases.long_notes /\
  (16 < length (name Cases.long_notes))%nat /\
  exists b : list byte,
    tobuf Cases.long_notes BSD_FORMAT ENCODING
    = (Return (VBytes b), set_inline_name Cases.long_notes true)
    /\ length b = 60%nat
    /\ frombuf_info_obj
         (VBytes (b ++ list_byte_of_string "twenty_characters.ob"
                    ++ list_byte_of_string "ELF"))
         (None : option pystr) ENCODING
       = Return
           (set_name
              (set_inline_filename
                 (built_record (str "#1/20") 1700000000 1000 100 493 7 None)
                 true)
              Samples.name20).
Proof.
  assert (Hfit : fields_fit Cases.long_notes).
  { unfold fields_fit. vm_compute. intuition discriminate. }
  assert (Hlen : (16 < length (name Cases.long_notes))%nat)
    by (vm_compute; lia).
  split; [exact Hfit|]. split; [exact Hlen|].
  assert (Hbound : Z.of_nat (length (name Cases.long_notes)) < 10 ^ 13)
    by (vm_compute; reflexivity).
  assert (Hpayload : Utf8.encode (name Cases.long_notes)
                     = Some (list_byte_of_string "twenty_characters.ob"))
    by (vm_compute; reflexivity).
  assert (Hrest : Utf8.decode (list_byte_of_string "ELF") = Some (str "ELF"))
    by (vm_compute; reflexivity).
  destruct (bsd_extended_name_reads_back
              Cases.long_notes None
              (list_byte_of_string "twenty_characters.ob")
              (list_byte_of_string "ELF") (str "ELF") Hfit Hlen
              Hbound Hpayload Hrest)
    as (b & Hto & Hl & Hfrom).
  exists b. split; [exact Hto|]. split; [exact Hl|].
  rewrite Hfrom. vm_compute. reflexivity.
Defined.

(** X4: a name of more than 15 characters goes through the GNU
    convention and the container.  For a record whose numeric attributes
    are non-negative and fit their columns ([mtime] below 10^12, [uid]
    and [gid] below 10^6, [mode] below 8^8, [size] below 10^10) and
    whose parent's [save_filename] returns an offset from 0 to
    10^15 - 1, [tobuf] saves the name in the parent and writes a 60-byte
    header with the token [/<offset>].  When the container, as [tobuf]
    leaves it, gives the name back for that offset, [frombuf] on the
    header with that container does one of two things.  When base 8 can
    read the decimal text of the size, it builds a record with the name
    itself, the same [mtime], [uid], [gid] and [mode], and as size what
    base 8 reads.  When base 8 cannot (a digit 8 or 9), it raises the
    invalid-numeric-field [HeaderError] on the size column. *)
Theorem gnu_extended_name_reads_back {C : Type} `{ArFileLike C}
    (self : ArInfo C) (parent parent' : C) (offset : Z) :
  fields_fit self ->
  (15 < length (name self))%nat ->
  _parent self = Some parent ->
  save_filename parent (name self) = (Return offset, parent') ->
  0 <= offset < 10 ^ 15 ->
  read_filename parent' offset = Return (name self) ->
  exists b : list byte,
    tobuf self GNU_FORMAT ENCODING
    = (Return (VBytes b), set_parent self (Some parent'))
    /\ length b = 60%nat
    /\ frombuf_info_obj (VBytes b) (Some parent') ENCODING
       = match py_int (format_d 10 (size self)) 8 with
         | Some v =>
             Return
               (set_name
                  (set_inline_filename
                     (built_record (SLASH :: int_str offset)
                                   (mtime self) (uid self) (gid self)
                                   (mode self) v (Some parent'))
                     false)
                  (name self))
         | None =>
             Raise (HeaderError
                      (InvalidNumericField (format_d 10 (size self)) "size"))
         end.
Proof.
  intros Hfit Hlen Hparent Hsave Hoff Hread.
  set (token := SLASH :: int_str offset).
  set (field := ljust 16 token).
  assert (Hfield : length field = 16%nat)
    by (apply (length_extended_token [SLASH] offset 15); simpl; lia).
  assert (Hfasc : is_ascii field)
    by (apply (is_ascii_extended_token [SLASH] offset);
        [repeat constructor|lia]).
  destruct (encode_text_header field self Hfield Hfasc Hfit) as [He Hl].
  set (header := field ++ _append_common_data self) in *.
  destruct (written_header_columns field [] self Hfield Hfit)
    as (L & S0 & S1 & S2 & S3 & S4 & S5 & S6).
  rewrite app_nil_r in *. fold header in L, S0, S1, S2, S3, S4, S5, S6.
  exists (List.map Utf8.byte_of_N header).
  split.
  { unfold tobuf. cbn [GNU_FORMAT BSD_FORMAT Z.eqb Pos.eqb].
    unfold _create_gnu_format.
    replace (length (name self) <=? 15)%nat with false
      by (symmetry; apply Nat.leb_gt; exact Hlen).
    rewrite Hparent, Hsave, append_common_data_set_parent.
    fold token field header. rewrite He. reflexivity. }
  split; [exact Hl|].
  assert (Hname : rstrip (slice header 0 16) = token).
  { rewrite S0. unfold field. rewrite rstrip_ljust.
    apply (rstrip_app_int_str [SLASH]). lia. }
  assert (Hdec : Utf8.decode (List.map Utf8.byte_of_N header) = Some header).
  { apply decode_ascii, Forall_app. split; [exact Hfasc|].
    apply is_ascii_append_common_data, fields_fit_non_negative, Hfit. }
  assert (Hlong : (60 <= length header)%nat) by lia.
  destruct (py_int (format_d 10 (size self)) 8) as [v|] eqn:Hsize.
  - rewrite (frombuf_info_obj_gnu _ _ (Some parent') (mtime self)
               (uid self) (gid self) (mode self) v Hdec);
      try assumption.
    + rewrite Hname. unfold token at 1.
      change (SLASH :: int_str offset) with ([SLASH] ++ int_str offset).
      rewrite (slice_from_app [SLASH] (int_str offset) 1 eq_refl).
      rewrite py_int_int_str, Hread. reflexivity.
    + rewrite S5. exact Hsize.
    + rewrite Hname. reflexivity.
  - rewrite (frombuf_info_obj_size_unreadable _ _ (Some parent')
               (mtime self) (uid self) (gid self) (mode self) Hdec);
      try assumption.
    + rewrite S5. reflexivity.
    + rewrite S5. exact Hsize.
Qed.

Lemma gnu_extended_name_reads_back_witness :
  fields_fit Cases.long_notes_in_table /\
  (15 < length (name Cases.long_notes_in_table))%nat /\
  exists b : list byte,
    tobuf Cases.long_notes_in_table GNU_FORMAT ENCODING
    = (Return (VBytes b),
       set_parent Cases.long_notes_in_table (Some Samples.two_names))
    /\ length b = 60%nat
    /\ frombuf_info_obj (VBytes b) (Some Samples.two_names) ENCODING
       = Return
           (set_name
              (set_inline_filename
                 (built_record (str "/6") 1700000000 1000 100 493 7
                               (Some Samples.two_names))
                 false)
              Samples.name20).
Proof.
  assert (Hfit : fields_fit Cases.long_notes_in_table).
  { unfold fields_fit. vm_compute. intuition discriminate. }
  assert (Hlen : (15 < length (name Cases.long_notes_in_table))%nat)
    by (vm_compute; lia).
  split; [exact Hfit|]. split; [exact Hlen|].
  assert (Hsave : save_filename (str "first" ++ [Table.NEWLINE])
                                (name Cases.long_notes_in_table)
                  = (Return 6, Samples.two_names)) by reflexivity.
  assert (Hoff : 0 <= 6 < 10 ^ 15) by (vm_compute; intuition discriminate).
  assert (Hread : read_filename Samples.two_names 6
                  = Return (name Cases.long_notes_in_table))
    by (vm_compute; reflexivity).
  destruct (gnu_extended_name_reads_back
              Cases.long_notes_in_table (str "first" ++ [Table.NEWLINE])
              Samples.two_names 6 Hfit Hlen eq_refl Hsave Hoff Hread)
    as (b & Hto & Hl & Hfrom).
  exists b. split; [exact Hto|]. split; [exact Hl|].
  rewrite Hfrom. vm_compute. reflexivity.
Defined.

(** ** Bytes after a header *)

(** Bytes that decode on their own decode the same before other bytes. *)
Lemma decode_app_bound (n : nat) :
  forall (a b : list byte) (t : pystr),
    (length a < n)%nat -> Utf8.decode a = Some t ->
    Utf8.decode (a ++ b) = option_map (app t) (Utf8.decode b).
Proof.
  induction n as [|n IH]; intros a b t Hn Hd; [lia|].
  destruct a as [|b0 r0].
  { inversion Hd. cbn [app]. destruct (Utf8.decode b); reflexivity. }
  assert (Hstep : forall (r : list byte) (c : char),
             (length r < n)%nat ->
             option_map (cons c) (Utf8.decode r) = Some t ->
             option_map (cons c) (Utf8.decode (r ++ b))
             = option_map (app t) (Utf8.decode b)).
  { intros r c Hr Ho.
    destruct (Utf8.decode r) as [t'|] eqn:D; [|discriminate].
    inversion Ho; subst. rewrite (IH r b t' Hr D).
    destruct (Utf8.decode b); reflexivity. }
  cbn [app Utf8.decode] in *. cbn [length] in Hn.
  destruct (Byte.to_N b0 <? 128)%N; [apply Hstep; [lia|exact Hd]|].
  destruct r0 as [|b1 r1]; [discriminate|].
  cbn [app length] in *.
  destruct (negb (Utf8.is_cont b1)); [discriminate|].
  destruct ((192 <=? Byte.to_N b0) && (Byte.to_N b0 <? 224))%N.
  { match type of Hd with (if ?c then _ else _) = _ => destruct c end;
      [discriminate|].
    apply Hstep; [lia|exact Hd]. }
  destruct r1 as [|b2 r2]; [discriminate|].
  cbn [app length] in *.
  destruct (negb (Utf8.is_cont b2)); [discriminate|].
  destruct ((224 <=? Byte.to_N b0) && (Byte.to_N b0 <? 240))%N.
  { match type of Hd with (if ?c then _ else _) = _ => destruct c end;
      [discriminate|].
    apply Hstep; [lia|exact Hd]. }
  destruct r2 as [|b3 r3]; [discriminate|].
  cbn [app length] in *.
  destruct (negb (Utf8.is_cont b3)); [discriminate|].
  destruct ((240 <=? Byte.to_N b0) && (Byte.to_N b0 <? 248))%N;
    [|discriminate].
  match type of Hd with (if ?c then _ else _) = _ => destruct c end;
    [discriminate|].
  apply Hstep; [lia|exact Hd].
Qed.

Lemma decode_app (a b : list byte) (t : pystr) :
  Utf8.decode a = Some t ->
  Utf8.decode (a ++ b) = option_map (app t) (Utf8.decode b).
Proof. apply (decode_app_bound (S (length a))). lia. Qed.

(** ** What [frombuf] refuses and what it accepts *)

(** X5: a buffer of fewer than 60 bytes is refused before any column is
    read: [frombuf] raises the too-short [HeaderError], or
    [UnicodeDecodeError] when the bytes are not UTF-8. *)
Theorem frombuf_refuses_short_buffer {C : Type} `{ArFileLike C}
    (buf : list byte) (arfile : option C) :
  (length buf < 60)%nat ->
  frombuf (VBytes buf) arfile ENCODING = Raise (HeaderError BufTooShort)
  \/ frombuf (VBytes buf) arfile ENCODING = Raise UnicodeDecodeError.
Proof.
  intros Hlen. unfold frombuf, frombuf_info_obj, decode_bytes.
  cbn [codec_decode ENCODING].
  destruct (Utf8.decode buf) as [text|] eqn:Hd; cbn [bind]; [|auto].
  destruct (decode_length_bound (S (length buf)) buf text ltac:(lia) Hd)
    as [Hle _].
  replace (length text <? 60)%nat with true
    by (symmetry; apply Nat.ltb_lt; lia).
  left. reflexivity.
Qed.

Lemma frombuf_refuses_short_buffer_witness :
  (length Cases.short_buffer < 60)%nat /\
  (frombuf (VBytes Cases.short_buffer) (None : option pystr) ENCODING
   = Raise (HeaderError BufTooShort)
   \/ frombuf (VBytes Cases.short_buffer) (None : option pystr) ENCODING
      = Raise UnicodeDecodeError).
Proof.
  assert (Hlen : (length Cases.short_buffer < 60)%nat) by (vm_compute; lia).
  split; [exact Hlen|].
  exact (frombuf_refuses_short_buffer Cases.short_buffer None Hlen).
Defined.

(** X6: the numeric columns are read in the order [mtime], [uid],
    [gid], [file mode], [size], and the first one that [int] cannot read
    is the one reported, with its raw text, whatever the later columns,
    the terminator and the name are. *)
Theorem frombuf_reports_first_unreadable_column {C : Type} `{ArFileLike C}
    (buf : list byte) (text : pystr) (arfile : option C) :
  Utf8.decode buf = Some text -> (60 <= length text)%nat ->
  (py_int (slice text 16 28) 10 = None ->
   frombuf (VBytes buf) arfile ENCODING
   = Raise (HeaderError (InvalidNumericField (slice text 16 28) "mtime")))
  /\ (py_int (slice text 16 28) 10 <> None ->
      py_int (slice text 28 34) 10 = None ->
      frombuf (VBytes buf) arfile ENCODING
      = Raise (HeaderError (InvalidNumericField (slice text 28 34) "uid")))
  /\ (py_int (slice text 16 28) 10 <> None ->
      py_int (slice text 28 34) 10 <> None ->
      py_int (slice text 34 40) 10 = None ->
      frombuf (VBytes buf) arfile ENCODING
      = Raise (HeaderError (InvalidNumericField (slice text 34 40) "gid")))
  /\ (py_int (slice text 16 28) 10 <> None ->
      py_int (slice text 28 34) 10 <> None ->
      py_int (slice text 34 40) 10 <> None ->
      py_int (slice text 40 48) 8 = None ->
      frombuf (VBytes buf) arfile ENCODING
      = Raise (HeaderError
                 (InvalidNumericField (slice text 40 48) "file mode")))
  /\ (py_int (slice text 16 28) 10 <> None ->
      py_int (slice text 28 34) 10 <> None ->
      py_int (slice text 34 40) 10 <> None ->
      py_int (slice text 40 48) 8 <> None ->
      py_int (slice text 48 58) 8 = None ->
      frombuf (VBytes buf) arfile ENCODING
      = Raise (HeaderError (InvalidNumericField (slice text 48 58) "size"))).
Proof.
  intros Hd Hlen.
  unfold frombuf, frombuf_info_obj, decode_bytes, parse_int.
  cbn [codec_decode ENCODING]. rewrite Hd. cbn [bind].
  replace (length text <? 60)%nat with false
    by (symmetry; apply Nat.ltb_ge; exact Hlen).
  destruct (py_int (slice text 16 28) 10); cbn [bind];
    [|repeat split; congruence].
  destruct (py_int (slice text 28 34) 10); cbn [bind];
    [|repeat split; congruence].
  destruct (py_int (slice text 34 40) 10); cbn [bind];
    [|repeat split; congruence].
  destruct (py_int (slice text 40 48) 8); cbn [bind];
    [|repeat split; congruence].
  destruct (py_int (slice text 48 58) 8); cbn [bind];
    repeat split; congruence.
Qed.

Lemma frombuf_reports_first_unreadable_column_witness :
  frombuf (VBytes Cases.bad_uid_header) (None : option pystr) ENCODING
  = Raise (HeaderError (InvalidNumericField (str "abc   ") "uid")).
Proof.
  assert (Hd : Utf8.decode Cases.bad_uid_header
               = Some (List.map Byte.to_N Cases.bad_uid_header))
    by (vm_compute; reflexivity).
  assert (Hl : (60 <= length (List.map Byte.to_N Cases.bad_uid_header))%nat)
    by (vm_compute; lia).
  destruct (frombuf_reports_first_unreadable_column
              Cases.bad_uid_header _ (None : option pystr) Hd Hl)
    as (_ & Huid & _).
  rewrite Huid.
  - vm_compute. reflexivity.
  - vm_compute. discriminate.
  - vm_compute. reflexivity.
Defined.

(** X7: what a buffer that [frombuf] accepts is like.  It decodes to at
    least 60 characters, characters 58 and 59 are the terminator, and
    the five numeric attributes of the record built are what [int] reads
    in the five columns ([mode] and [size] in base 8); the record carries
    the container that was passed, its [_inline_name] is [False], and
    [_inline_filename] exists exactly when the name column is a token,
    telling whether the token is the BSD one. *)
Theorem frombuf_accepted_header {C : Type} `{ArFileLike C}
    (buf : list byte) (arfile : option C) (info : ArInfo C) :
  frombuf_info_obj (VBytes buf) arfile ENCODING = Return info ->
  exists text : pystr,
    Utf8.decode buf = Some text
    /\ (60 <= length text)%nat
    /\ slice text 58 60 = TERMINATOR
    /\ py_int (slice text 16 28) 10 = Some (mtime info)
    /\ py_int (slice text 28 34) 10 = Some (uid info)
    /\ py_int (slice text 34 40) 10 = Some (gid info)
    /\ py_int (slice text 40 48) 8 = Some (mode info)
    /\ py_int (slice text 48 58) 8 = Some (size info)
    /\ _parent info = arfile
    /\ _inline_name info = false
    /\ _inline_filename info
       = (if is_token (rstrip (slice text 0 16))
          then Some (startswith (str "#1/") (rstrip (slice text 0 16)))
          else None).
Proof.
  unfold frombuf_info_obj, decode_bytes, parse_int.
  cbn [codec_decode ENCODING].
  destruct (Utf8.decode buf) as [text|]; cbn [bind]; [|discriminate].
  destruct (length text <? 60)%nat eqn:Hlen; [discriminate|].
  apply Nat.ltb_ge in Hlen.
  destruct (py_int (slice text 16 28) 10) as [m|] eqn:Em; cbn [bind];
    [|discriminate].
  destruct (py_int (slice text 28 34) 10) as [u|] eqn:Eu; cbn [bind];
    [|discriminate].
  destruct (py_int (slice text 34 40) 10) as [g|] eqn:Eg; cbn [bind];
    [|discriminate].
  destruct (py_int (slice text 40 48) 8) as [o|] eqn:Eo; cbn [bind];
    [|discriminate].
  destruct (py_int (slice text 48 58) 8) as [s|] eqn:Es; cbn [bind];
    [|discriminate].
  destruct (pystr_eqb (slice text 58 60) TERMINATOR) eqn:Hterm;
    [|discriminate].
  apply pystr_eqb_eq in Hterm. cbn [negb].
  intros Hret. exists text.
  split; [reflexivity|]. split; [exact Hlen|]. split; [exact Hterm|].
  rewrite Em, Eu, Eg, Eo, Es.
  unfold is_token.
  remember (rstrip (slice text 0 16)) as field eqn:Hfield in *.
  destruct (startswith (str "#1/") field) eqn:Ebsd.
  - rewrite orb_true_r in *.
    cbn [get_inline_filename set_inline_filename _inline_filename bind]
      in Hret.
    destruct (py_int (slice_from field 3) 10) as [len|]; [|discriminate].
    destruct (Z.of_nat (length text) >=? 60 + len);
      cbn [get_inline_filename set_inline_filename set_name
             _inline_filename bind negb] in Hret;
      injection Hret as <-; repeat split; reflexivity.
  - rewrite orb_false_r in *.
    destruct (startswith (str "/") field) eqn:Egnu.
    + cbn [get_inline_filename set_inline_filename _inline_filename bind
             negb] in Hret.
      destruct (py_int (slice_from field 1) 10) as [offset|];
        [|discriminate].
      destruct arfile as [a|]; [|discriminate].
      destruct (read_filename a offset) as [fname|e]; cbn [bind] in Hret;
        [|discriminate].
      injection Hret as <-. repeat split; reflexivity.
    + cbn [bind] in Hret. injection Hret as <-. repeat split; reflexivity.
Qed.

Lemma frombuf_accepted_header_witness :
  exists text : pystr,
    Utf8.decode Samples.hello_header = Some text
    /\ (60 <= length text)%nat
    /\ slice text 58 60 = TERMINATOR
    /\ py_int (slice text 16 28) 10 = Some 1700000000
    /\ py_int (slice text 48 58) 8 = Some 10.
Proof.
  destruct (frombuf_accepted_header
              Samples.hello_header (None : option pystr)
              (built_record (str "hello.txt/") 1700000000 1000 1000 420 10
                            None))
    as (text & Hd & Hl & Ht & Hm & _ & _ & _ & Hs & _).
  - vm_compute. reflexivity.
  - exists text. repeat split; assumption.
Defined.

(** ** What [tobuf] writes, whatever the attributes *)

Section AnyRecord.

Context {C : Type} `{ArFileLike C}.

Lemma is_ascii_int_to_base_any (base : N) (z : Z) :
  (2 <= base)%N -> (base <= 10)%N -> is_ascii (int_to_base base z).
Proof.
  intros Hlo Hhi. unfold int_to_base.
  destruct (z <? 0).
  - constructor; [unfold MINUS; lia|].
    destruct (to_base_spec base Hlo Hhi (Z.abs_N z))
      as (ds & Hds & _ & Hall & _).
    rewrite Hds. eapply Forall_impl; [|exact Hall].
    intros c Hc. apply (digit_of_value base Hlo Hhi) in Hc. lia.
  - destruct (to_base_spec base Hlo Hhi (Z.to_N z))
      as (ds & Hds & _ & Hall & _).
    rewrite Hds. eapply Forall_impl; [|exact Hall].
    intros c Hc. apply (digit_of_value base Hlo Hhi) in Hc. lia.
Qed.

(** The common part is ASCII for any integers. *)
Lemma is_ascii_append_common_data_any (self : ArInfo C) :
  is_ascii (_append_common_data self).
Proof.
  rewrite append_common_data_columns. unfold is_ascii.
  rewrite !Forall_app. unfold format_d, format_o.
  repeat split;
    try (apply is_ascii_ljust, is_ascii_int_to_base_any; lia).
  apply is_ascii_terminator.
Qed.

(** The common part has at least its 44 characters. *)
Lemma length_append_common_data_ge (self : ArInfo C) :
  (44 <= length (_append_common_data self))%nat.
Proof.
  rewrite append_common_data_columns, !length_app.
  unfold format_d, format_o. rewrite !length_ljust.
  change (length TERMINATOR) with 2%nat. lia.
Qed.

(** The bytes of the common part end with the terminator. *)
Lemma encode_append_common_data (self : ArInfo C) :
  exists body : list byte,
    Utf8.encode (_append_common_data self) = Some (body ++ TERMINATOR_BYTES)
    /\ (42 <= length body)%nat.
Proof.
  pose proof (is_ascii_append_common_data_any self) as Hasc.
  pose proof (length_append_common_data_ge self) as Hlen.
  rewrite encode_ascii by exact Hasc.
  unfold _append_common_data in *. cbn [app] in *.
  set (body := (((format_d 12 (mtime self) ++ format_d 6 (uid self))
                 ++ format_d 6 (gid self)) ++ format_o 8 (mode self))
               ++ format_d 10 (size self)) in *.
  exists (List.map Utf8.byte_of_N body). split.
  - rewrite map_app. reflexivity.
  - rewrite length_map. clearbody body. rewrite length_app in Hlen.
    cbn [length TERMINATOR] in Hlen. unfold pystr, char in *. lia.
Qed.

(** What a name column of at least 16 characters followed by the common
    part is encoded to, when it can be encoded. *)
Lemma encode_text_shape (field : pystr) (self : ArInfo C) (b : list byte) :
  (16 <= length field)%nat ->
  encode_text (C:=C) ENCODING (field ++ _append_common_data self)
  = Return (VBytes b) ->
  exists column body : list byte,
    b = column ++ body ++ TERMINATOR_BYTES
    /\ Utf8.encode field = Some column
    /\ (16 <= length column)%nat /\ (42 <= length body)%nat.
Proof.
  intros Hfield. unfold encode_text. cbn [codec_encode ENCODING].
  rewrite encode_app.
  destruct (Utf8.encode field) as [column|] eqn:Ef; [|discriminate].
  destruct (encode_append_common_data self) as (body & Hbody & Hlen).
  rewrite Hbody. intros E. injection E as <-.
  exists column, body. repeat split; try assumption.
  apply length_encode_ge in Ef. lia.
Qed.

End AnyRecord.

(** X8: whenever [tobuf] returns bytes, in either format and for any
    attributes, it returns at least 60 of them and the last two are
    [0x60 0x0A]: a column too narrow for its number makes the header
    longer, it never cuts the terminator off. *)
Theorem tobuf_header_ends_with_terminator {C : Type} `{ArFileLike C}
    (self self' : ArInfo C) (format : Z) (b : list byte) :
  tobuf self format ENCODING = (Return (VBytes b), self') ->
  (60 <= length b)%nat /\ skipn (length b - 2) b = TERMINATOR_BYTES.
Proof.
  intros Hret.
  assert (Hshape : exists (field : pystr) (r : ArInfo C),
             (16 <= length field)%nat /\
             encode_text (C:=C) ENCODING (field ++ _append_common_data r)
             = Return (VBytes b)).
  { unfold tobuf in Hret.
    destruct (format =? BSD_FORMAT).
    - unfold _create_bsd_format in Hret.
      destruct (length (name self) <=? 16)%nat;
        apply (f_equal fst) in Hret; cbn [fst] in Hret;
        eexists; eexists; (split; [|exact Hret]);
        rewrite length_ljust; lia.
    - destruct (format =? GNU_FORMAT); [|discriminate].
      unfold _create_gnu_format in Hret.
      destruct (length (name self) <=? 15)%nat.
      + apply (f_equal fst) in Hret; cbn [fst] in Hret.
        eexists; eexists; (split; [|exact Hret]).
        rewrite length_ljust; lia.
      + destruct (_parent self) as [parent|]; [|discriminate].
        destruct (save_filename parent (name self)) as [[offset|e] parent'];
          [|discriminate].
        apply (f_equal fst) in Hret; cbn [fst] in Hret.
        eexists; eexists; (split; [|exact Hret]).
        rewrite length_ljust; lia. }
  destruct Hshape as (field & r & Hfield & Henc).
  destruct (encode_text_shape field r b Hfield Henc)
    as (column & body & -> & _ & Hcol & Hbody).
  split; [rewrite !length_app; simpl; lia|].
  rewrite app_assoc, skipn_app.
  replace (length ((column ++ body) ++ TERMINATOR_BYTES) - 2)%nat
    with (length (column ++ body)) by (rewrite !length_app; simpl; lia).
  rewrite skipn_all, Nat.sub_diag. reflexivity.
Qed.

Lemma tobuf_header_ends_with_terminator_witness :
  exists b : list byte,
    tobuf Samples.late BSD_FORMAT ENCODING = (Return (VBytes b), Samples.late)
    /\ length b = 61%nat
    /\ skipn (length b - 2) b = TERMINATOR_BYTES.
Proof.
  eexists. split; [vm_compute; reflexivity|].
  split; [reflexivity|].
  eapply (tobuf_header_ends_with_terminator Samples.late Samples.late
                                            BSD_FORMAT).
  vm_compute. reflexivity.
Defined.

(** X9: [tobuf] leaves the member as it is.  Whatever the format, the
    encoding and the outcome, the record afterwards has the same name,
    the same numeric attributes, the same stream attributes and the same
    [_inline_filename]; [_inline_name] becomes [True] in BSD format when
    the name has more than 16 characters and is untouched otherwise; the
    parent can only differ in GNU format with a name of more than 15
    characters, after [save_filename]. *)
Theorem tobuf_keeps_attributes {C : Type} `{ArFileLike C}
    (self : ArInfo C) (format : Z) (encoding : codec) :
  let self' := snd (tobuf self format encoding) in
  name self' = name self
  /\ numbers self' = numbers self
  /\ _stream_fd self' = _stream_fd self
  /\ _stream_offs self' = _stream_offs self
  /\ _inline_filename self' = _inline_filename self
  /\ _inline_name self'
     = (if (format =? BSD_FORMAT) && (16 <? length (name self))%nat
        then true else _inline_name self)
  /\ (_parent self' <> _parent self ->
      format = GNU_FORMAT /\ (15 < length (name self))%nat).
Proof.
  unfold tobuf. destruct (format =? BSD_FORMAT) eqn:Ebsd.
  - unfold _create_bsd_format.
    destruct (length (name self) <=? 16)%nat eqn:Elen; cbn [snd].
    + replace (16 <? length (name self))%nat with false
        by (symmetry; apply Nat.ltb_ge; apply Nat.leb_le; exact Elen).
      repeat split; try reflexivity; congruence.
    + replace (16 <? length (name self))%nat with true
        by (symmetry; apply Nat.ltb_lt; apply Nat.leb_gt; exact Elen).
      repeat split; try reflexivity;
        match goal with Hp : _ <> _ |- _ => exfalso; apply Hp; reflexivity end.
  - cbn [andb]. destruct (format =? GNU_FORMAT) eqn:Egnu.
    + apply Z.eqb_eq in Egnu. unfold _create_gnu_format.
      destruct (length (name self) <=? 15)%nat eqn:Elen; cbn [snd].
      * repeat split; try reflexivity; congruence.
      * apply Nat.leb_gt in Elen.
        destruct (_parent self) as [parent|] eqn:Eparent; cbn [snd].
        -- destruct (save_filename parent (name self))
             as [[offset|e] parent']; cbn [snd];
             repeat split; try reflexivity; assumption.
        -- repeat split; try reflexivity; assumption.
    + cbn [snd]. repeat split; try reflexivity; congruence.
Qed.

(** X10: an encoding failure comes out of [tobuf] as Python's
    [UnicodeEncodeError], not as the module's [EncodingError].  When a
    name that is written in the name column (at most 16 characters in BSD
    format, at most 15 in GNU format) holds a lone surrogate, [tobuf]
    raises [UnicodeEncodeError], for any numeric attributes. *)
Theorem tobuf_inline_surrogate_raises_unicode_error {C : Type}
    `{ArFileLike C} (self : ArInfo C) (c : char) :
  In c (name self) -> is_surrogate c ->
  ((length (name self) <= 16)%nat ->
   tobuf self BSD_FORMAT ENCODING = (Raise UnicodeEncodeError, self))
  /\ ((length (name self) <= 15)%nat ->
      tobuf self GNU_FORMAT ENCODING = (Raise UnicodeEncodeError, self)).
Proof.
  intros Hin Hc.
  pose proof (encode_surrogate (name self) c Hin Hc) as Hnone.
  unfold tobuf. cbn [GNU_FORMAT BSD_FORMAT Z.eqb Pos.eqb].
  unfold _create_bsd_format, _create_gnu_format, encode_text, ljust.
  cbn [codec_encode ENCODING].
  split; intros Hlen.
  - replace (length (name self) <=? 16)%nat with true
      by (symmetry; apply Nat.leb_le; exact Hlen).
    rewrite !encode_app, Hnone. reflexivity.
  - replace (length (name self) <=? 15)%nat with true
      by (symmetry; apply Nat.leb_le; exact Hlen).
    rewrite !encode_app, Hnone. reflexivity.
Qed.

Lemma tobuf_inline_surrogate_raises_unicode_error_witness :
  In 55296%N (name Cases.surrogate_name) /\ is_surrogate 55296%N /\
  tobuf Cases.surrogate_name BSD_FORMAT ENCODING
  = (Raise UnicodeEncodeError, Cases.surrogate_name) /\
  tobuf Cases.surrogate_name GNU_FORMAT ENCODING
  = (Raise UnicodeEncodeError, Cases.surrogate_name).
Proof.
  assert (Hin : In 55296%N (name Cases.surrogate_name)) by (left; reflexivity).
  assert (Hs : is_surrogate 55296%N) by (unfold is_surrogate; lia).
  split; [exact Hin|]. split; [exact Hs|].
  destruct (tobuf_inline_surrogate_raises_unicode_error
              Cases.surrogate_name 55296%N Hin Hs) as [Hbsd Hgnu].
  split; [apply Hbsd|apply Hgnu]; vm_compute; lia.
Defined.

(** X11: a name that goes through an extended-name token cannot make
    [tobuf] fail on its characters or on the width of the numbers.  For
    a record whose [mtime], [uid], [gid] and [size] have at most 4300
    decimal digits each (what the interpreter converts to text at its
    default setting), of any sign and whether or not they fit their
    columns, and any [mode]: with any name of more than 16 characters
    BSD-format [tobuf] returns bytes and sets [_inline_name]; with any
    name of more than 15 characters and a parent whose [save_filename]
    returns an offset of at most 4300 digits, GNU-format [tobuf] returns
    bytes, the parent being as [save_filename] left it.  When
    [save_filename] raises, GNU-format [tobuf] raises the same exception,
    whatever the attributes, the parent being as [save_filename] left
    it. *)
Theorem tobuf_extended_name_outcome {C : Type} `{ArFileLike C}
    (self : ArInfo C) :
  ((16 < length (name self))%nat ->
   decimal_attributes_within_limit self ->
   exists b : list byte,
     tobuf self BSD_FORMAT ENCODING
     = (Return (VBytes b), set_inline_name self true))
  /\ (forall (parent parent' : C) (offset : Z),
         (15 < length (name self))%nat ->
         decimal_attributes_within_limit self ->
         _parent self = Some parent ->
         save_filename parent (name self) = (Return offset, parent') ->
         within_digit_limit offset ->
         exists b : list byte,
           tobuf self GNU_FORMAT ENCODING
           = (Return (VBytes b), set_parent self (Some parent')))
  /\ (forall (parent parent' : C) (e : exn),
         (15 < length (name self))%nat ->
         _parent self = Some parent ->
         save_filename parent (name self) = (Raise e, parent') ->
         tobuf self GNU_FORMAT ENCODING
         = (Raise e, set_parent self (Some parent'))).
Proof.
  unfold tobuf. cbn [GNU_FORMAT BSD_FORMAT Z.eqb Pos.eqb].
  unfold _create_bsd_format, _create_gnu_format, encode_text.
  cbn [codec_encode ENCODING].
  repeat split.
  - intros Hlen _.
    replace (length (name self) <=? 16)%nat with false
      by (symmetry; apply Nat.leb_gt; exact Hlen).
    rewrite encode_ascii; [eexists; reflexivity|].
    apply Forall_app. split.
    + apply is_ascii_ljust, Forall_app. split; [repeat constructor|].
      apply is_ascii_int_to_base_any; lia.
    + apply is_ascii_append_common_data_any.
  - intros parent parent' offset Hlen _ Hp Hsave _.
    replace (length (name self) <=? 15)%nat with false
      by (symmetry; apply Nat.leb_gt; exact Hlen).
    rewrite Hp, Hsave.
    rewrite encode_ascii; [eexists; reflexivity|].
    apply Forall_app. split.
    + apply is_ascii_ljust. constructor; [unfold SLASH; lia|].
      apply is_ascii_int_to_base_any; lia.
    + apply is_ascii_append_common_data_any.
  - intros parent parent' e Hlen Hp Hsave.
    replace (length (name self) <=? 15)%nat with false
      by (symmetry; apply Nat.leb_gt; exact Hlen).
    rewrite Hp, Hsave. reflexivity.
Qed.

Lemma tobuf_extended_name_outcome_witness :
  (16 < length (name Cases.long_notes))%nat /\
  decimal_attributes_within_limit Cases.long_notes /\
  exists b : list byte,
    tobuf Cases.long_notes BSD_FORMAT ENCODING
    = (Return (VBytes b), set_inline_name Cases.long_notes true).
Proof.
  assert (Hlen : (16 < length (name Cases.long_notes))%nat)
    by (vm_compute; lia).
  assert (Hlim : decimal_attributes_within_limit Cases.long_notes).
  { unfold decimal_attributes_within_limit, within_digit_limit.
    repeat split; vm_compute; reflexivity. }
  split; [exact Hlen|]. split; [exact Hlim|].
  exact (proj1 (tobuf_extended_name_outcome Cases.long_notes) Hlen Hlim).
Defined.

(** X12: encoding twice is encoding once.  In BSD format, and in GNU
    format for a name of at most 15 characters, a second [tobuf] on the
    record as the first one left it has the same outcome and leaves the
    same record. *)
Theorem tobuf_twice {C : Type} `{ArFileLike C}
    (self : ArInfo C) (encoding : codec) :
  tobuf (snd (tobuf self BSD_FORMAT encoding)) BSD_FORMAT encoding
  = tobuf self BSD_FORMAT encoding
  /\ ((length (name self) <= 15)%nat ->
      tobuf (snd (tobuf self GNU_FORMAT encoding)) GNU_FORMAT encoding
      = tobuf self GNU_FORMAT encoding).
Proof.
  unfold tobuf. cbn [GNU_FORMAT BSD_FORMAT Z.eqb Pos.eqb].
  unfold _create_bsd_format, _create_gnu_format. split.
  - destruct (length (name self) <=? 16)%nat eqn:Elen; cbn [snd name
      set_inline_name]; rewrite Elen; reflexivity.
  - intros Hlen.
    replace (length (name self) <=? 15)%nat with true
      by (symmetry; apply Nat.leb_le; exact Hlen).
    cbn [snd].
    replace (length (name self) <=? 15)%nat with true
      by (symmetry; apply Nat.leb_le; exact Hlen).
    reflexivity.
Qed.

Lemma tobuf_twice_witness :
  (length (name Cases.notes) <= 15)%nat /\
  tobuf (snd (tobuf Cases.notes GNU_FORMAT ENCODING)) GNU_FORMAT ENCODING
  = tobuf Cases.notes GNU_FORMAT ENCODING.
Proof.
  assert (Hlen : (length (name Cases.notes) <= 15)%nat) by (vm_compute; lia).
  split; [exact Hlen|].
  exact (proj2 (tobuf_twice Cases.notes ENCODING) Hlen).
Defined.

(** X13: the header of a fresh member.  For an ASCII name of at most 15
    characters, [ArInfo(name).tobuf()] returns, in the default format,
    60 bytes: the name and its slash padded to 16, then the defaults of
    [__init__] as text, time 0, owner 0, group 0, mode 644, size 0, and
    the terminator. *)
Theorem tobuf_of_fresh_member {C : Type} `{ArFileLike C} (n : pystr) :
  is_ascii n -> (length n <= 15)%nat ->
  tobuf (__init__ (C:=C) n) DEFAULT_FORMAT ENCODING
  = (Return
       (VBytes
          (List.map Utf8.byte_of_N (ljust 16 (n ++ [SLASH]))
           ++ list_byte_of_string
                "0           0     0     644     0         "
           ++ TERMINATOR_BYTES)),
     __init__ n)
  /\ length (List.map Utf8.byte_of_N (ljust 16 (n ++ [SLASH]))) = 16%nat.
Proof.
  intros Hasc Hlen. split.
  - unfold tobuf. cbn [DEFAULT_FORMAT GNU_FORMAT BSD_FORMAT Z.eqb Pos.eqb].
    unfold _create_gnu_format. cbn [name __init__].
    replace (length n <=? 15)%nat with true
      by (symmetry; apply Nat.leb_le; exact Hlen).
    unfold encode_text. cbn [codec_encode ENCODING].
    rewrite encode_app, encode_ascii
      by (apply is_ascii_ljust, Forall_app; split;
          [exact Hasc|repeat constructor]).
    reflexivity.
  - rewrite length_map. apply ljust_fits. rewrite length_app. simpl. lia.
Qed.

Lemma tobuf_of_fresh_member_witness :
  is_ascii (str "notes.txt") /\ (length (str "notes.txt") <= 15)%nat /\
  tobuf (__init__ (C:=pystr) (str "notes.txt")) DEFAULT_FORMAT ENCODING
  = (Return
       (VBytes
          (list_byte_of_string
             "notes.txt/      0           0     0     644     0         "
           ++ TERMINATOR_BYTES)),
     __init__ (str "notes.txt")).
Proof.
  assert (Hasc : is_ascii (str "notes.txt")) by (repeat constructor).
  assert (Hlen : (length (str "notes.txt") <= 15)%nat) by (vm_compute; lia).
  split; [exact Hasc|]. split; [exact Hlen|].
  rewrite (proj1 (tobuf_of_fresh_member (C:=pystr) (str "notes.txt")
                                        Hasc Hlen)).
  reflexivity.
Defined.

(** ** Tokens and trailing bytes in [frombuf] *)

(** X14: what [frombuf] does with a name column that starts with a
    slash, on a header whose numeric columns and terminator are in
    order.  Digits that [int] cannot read make it raise the
    invalid-filename [HeaderError], container or not: so it does for the
    columns [/] and [//], the names of the symbol table and of the
    filename table of a GNU archive.  With an offset and no container it
    raises the need-ArFile [HeaderError]; with a container it asks it for
    the name, and what the container raises comes out unchanged. *)
Theorem frombuf_slash_column {C : Type} `{ArFileLike C}
    (buf : list byte) (text : pystr) (arfile : option C) :
  Utf8.decode buf = Some text -> (60 <= length text)%nat ->
  numeric_fields_readable text = true ->
  slice text 58 60 = TERMINATOR ->
  startswith (str "/") (rstrip (slice text 0 16)) = true ->
  frombuf (VBytes buf) arfile ENCODING
  = match py_int (slice_from (rstrip (slice text 0 16)) 1) 10 with
    | None =>
        Raise (HeaderError (InvalidFilename (rstrip (slice text 0 16))))
    | Some offset =>
        match arfile with
        | None =>
            Raise (HeaderError (NeedArFile (rstrip (slice text 0 16))))
        | Some a =>
            match read_filename a offset with
            | Return _ => Return VNone
            | Raise e => Raise e
            end
        end
    end
  /\ (rstrip (slice text 0 16) = str "/"
      \/ rstrip (slice text 0 16) = str "//" ->
      frombuf (VBytes buf) arfile ENCODING
      = Raise (HeaderError (InvalidFilename (rstrip (slice text 0 16))))).
Proof.
  intros Hd Hlen Hread Hterm Hslash.
  unfold numeric_fields_readable in Hread.
  destruct (py_int (slice text 16 28) 10) as [m|] eqn:Em; [|discriminate].
  destruct (py_int (slice text 28 34) 10) as [u|] eqn:Eu; [|discriminate].
  destruct (py_int (slice text 34 40) 10) as [g|] eqn:Eg; [|discriminate].
  destruct (py_int (slice text 40 48) 8) as [o|] eqn:Eo; [|discriminate].
  destruct (py_int (slice text 48 58) 8) as [s|] eqn:Es; [|discriminate].
  assert (Hgnu := frombuf_info_obj_gnu buf text arfile m u g o s
                    Hd Hlen Em Eu Eg Eo Es Hterm Hslash).
  unfold frombuf. rewrite Hgnu. split.
  - destruct (py_int (slice_from (rstrip (slice text 0 16)) 1) 10);
      [|reflexivity].
    destruct arfile as [a|]; [|reflexivity].
    destruct (read_filename a z); reflexivity.
  - intros [E|E]; rewrite E; reflexivity.
Qed.

Lemma frombuf_slash_column_witness :
  frombuf (VBytes Cases.symbol_table_header) (Some Samples.two_names)
          ENCODING
  = Raise (HeaderError (InvalidFilename (str "/")))
  /\ frombuf (VBytes Cases.offset_6_header) (None : option pystr) ENCODING
     = Raise (HeaderError (NeedArFile (str "/6"))).
Proof.
  split.
  - set (text := List.map Byte.to_N Cases.symbol_table_header).
    assert (Hd : Utf8.decode Cases.symbol_table_header = Some text)
      by (vm_compute; reflexivity).
    assert (Hl : (60 <= length text)%nat) by (vm_compute; lia).
    assert (Hr : numeric_fields_readable text = true)
      by (vm_compute; reflexivity).
    assert (Ht : slice text 58 60 = TERMINATOR) by (vm_compute; reflexivity).
    assert (Hs : startswith (str "/") (rstrip (slice text 0 16)) = true)
      by (vm_compute; reflexivity).
    destruct (frombuf_slash_column Cases.symbol_table_header text
                                   (Some Samples.two_names) Hd Hl Hr Ht Hs)
      as [_ Hspecial].
    rewrite Hspecial; [vm_compute; reflexivity|].
    left. vm_compute. reflexivity.
  - set (text := List.map Byte.to_N Cases.offset_6_header).
    assert (Hd : Utf8.decode Cases.offset_6_header = Some text)
      by (vm_compute; reflexivity).
    assert (Hl : (60 <= length text)%nat) by (vm_compute; lia).
    assert (Hr : numeric_fields_readable text = true)
      by (vm_compute; reflexivity).
    assert (Ht : slice text 58 60 = TERMINATOR) by (vm_compute; reflexivity).
    assert (Hs : startswith (str "/") (rstrip (slice text 0 16)) = true)
      by (vm_compute; reflexivity).
    destruct (frombuf_slash_column Cases.offset_6_header text
                                   (None : option pystr) Hd Hl Hr Ht Hs)
      as [Hgen _].
    rewrite Hgen. vm_compute. reflexivity.
Defined.

(** X15: [frombuf] decodes the whole buffer before it looks at the
    header.  When bytes that are not UTF-8 follow bytes that are, for
    instance the data of a member after its header, [frombuf] raises
    [UnicodeDecodeError], whatever the header. *)
Theorem frombuf_decodes_whole_buffer {C : Type} `{ArFileLike C}
    (buf rest : list byte) (text : pystr) (arfile : option C) :
  Utf8.decode buf = Some text -> Utf8.decode rest = None ->
  frombuf (VBytes (buf ++ rest)) arfile ENCODING = Raise UnicodeDecodeError.
Proof.
  intros Hd Hrest. unfold frombuf, frombuf_info_obj, decode_bytes.
  cbn [codec_decode ENCODING].
  rewrite (decode_app buf rest text Hd), Hrest. reflexivity.
Qed.

Lemma frombuf_decodes_whole_buffer_witness :
  Utf8.decode Samples.hello_header
  = Some (List.map Byte.to_N Samples.hello_header) /\
  Utf8.decode [xff] = None /\
  frombuf (VBytes (Samples.hello_header ++ [xff])) (None : option pystr)
          ENCODING
  = Raise UnicodeDecodeError.
Proof.
  assert (Hd : Utf8.decode Samples.hello_header
               = Some (List.map Byte.to_N Samples.hello_header))
    by (vm_compute; reflexivity).
  assert (Hr : Utf8.decode [xff] = None) by (vm_compute; reflexivity).
  split; [exact Hd|]. split; [exact Hr|].
  exact (frombuf_decodes_whole_buffer
           Samples.hello_header [xff] _ None Hd Hr).
Defined.

(** X16: bytes that decode and follow a header change nothing unless the
    name column is a BSD token.  When the first bytes alone decode to at
    least 60 characters and the name column does not start with [#1/],
    [frombuf] has the same outcome and builds the same record with and
    without the bytes that follow. *)
Theorem frombuf_ignores_what_follows {C : Type} `{ArFileLike C}
    (buf rest : list byte) (text rest_text : pystr) (arfile : option C) :
  Utf8.decode buf = Some text -> (60 <= length text)%nat ->
  Utf8.decode rest = Some rest_text ->
  startswith (str "#1/") (rstrip (slice text 0 16)) = false ->
  frombuf_info_obj (VBytes (buf ++ rest)) arfile ENCODING
  = frombuf_info_obj (VBytes buf) arfile ENCODING
  /\ frombuf (VBytes (buf ++ rest)) arfile ENCODING
     = frombuf (VBytes buf) arfile ENCODING.
Proof.
  intros Hd Hlen Hrest Hbsd.
  assert (Hobj : frombuf_info_obj (VBytes (buf ++ rest)) arfile ENCODING
                 = frombuf_info_obj (VBytes buf) arfile ENCODING).
  { unfold frombuf_info_obj, decode_bytes, parse_int.
    cbn [codec_decode ENCODING].
    rewrite (decode_app buf rest text Hd), Hrest, Hd. cbn [option_map bind].
    replace (length (text ++ rest_text) <? 60)%nat with false
      by (symmetry; apply Nat.ltb_ge; rewrite length_app; lia).
    replace (length text <? 60)%nat with false
      by (symmetry; apply Nat.ltb_ge; exact Hlen).
    replace (slice (text ++ rest_text) 0 16) with (slice text 0 16)
      by (symmetry; apply (slice_app_l text rest_text 0 16); lia).
    replace (slice (text ++ rest_text) 16 28) with (slice text 16 28)
      by (symmetry; apply (slice_app_l text rest_text 16 28); lia).
    replace (slice (text ++ rest_text) 28 34) with (slice text 28 34)
      by (symmetry; apply (slice_app_l text rest_text 28 34); lia).
    replace (slice (text ++ rest_text) 34 40) with (slice text 34 40)
      by (symmetry; apply (slice_app_l text rest_text 34 40); lia).
    replace (slice (text ++ rest_text) 40 48) with (slice text 40 48)
      by (symmetry; apply (slice_app_l text rest_text 40 48); lia).
    replace (slice (text ++ rest_text) 48 58) with (slice text 48 58)
      by (symmetry; apply (slice_app_l text rest_text 48 58); lia).
    replace (slice (text ++ rest_text) 58 60) with (slice text 58 60)
      by (symmetry; apply (slice_app_l text rest_text 58 60); lia).
    numeric_columns text reflexivity.
    destruct (negb (pystr_eqb (slice text 58 60) TERMINATOR));
      [reflexivity|].
    rewrite Hbsd, orb_false_r.
    destruct (startswith (str "/") (rstrip (slice text 0 16))); reflexivity. }
  split; [exact Hobj|]. unfold frombuf. rewrite Hobj. reflexivity.
Qed.

Lemma frombuf_ignores_what_follows_witness :
  frombuf_info_obj
    (VBytes (Samples.hello_header ++ list_byte_of_string "hello, world"))
    (None : option pystr) ENCODING
  = frombuf_info_obj (VBytes Samples.hello_header) (None : option pystr)
                     ENCODING.
Proof.
  apply (frombuf_ignores_what_follows
           Samples.hello_header (list_byte_of_string "hello, world")
           (List.map Byte.to_N Samples.hello_header)
           (str "hello, world") (None : option pystr)).
  - vm_compute. reflexivity.
  - vm_compute. lia.
  - vm_compute. reflexivity.
  - vm_compute. reflexivity.
Defined.

(** The header of the filename table of a GNU archive, whose columns
    other than the size are blank, is refused on its first column. *)
Example frombuf_filename_table_header :
  frombuf (VBytes Cases.filename_table_header) (Some Samples.two_names)
          ENCODING
  = Raise (HeaderError (InvalidNumericField (str "            ") "mtime")).
Proof. vm_compute. reflexivity. Qed.

Lemma slice_empty {A} (s : list A) (start stop : Z) :
  0 <= stop <= start -> slice s start stop = [].
Proof.
  intros Hs. unfold slice, clamp_index.
  replace (stop <? 0) with false by (symmetry; apply Z.ltb_ge; lia).
  replace (start <? 0) with false by (symmetry; apply Z.ltb_ge; lia).
  replace (Z.to_nat (Z.min (Z.of_nat (length s)) (Z.max 0 stop))
           - Z.to_nat (Z.min (Z.of_nat (length s)) (Z.max 0 start)))%nat
    with 0%nat by lia.
  reflexivity.
Qed.

(** X17: the length of a BSD token is not checked for its sign.  On a
    header whose numeric columns and terminator are in order and whose
    name column is [#1/<length>] with a length from -60 to 0, [frombuf]
    accepts the buffer and builds a record whose name is empty. *)
Theorem frombuf_bsd_length_not_positive {C : Type} `{ArFileLike C}
    (buf : list byte) (text : pystr) (arfile : option C) (length' : Z) :
  Utf8.decode buf = Some text -> (60 <= length text)%nat ->
  numeric_fields_readable text = true ->
  slice text 58 60 = TERMINATOR ->
  startswith (str "#1/") (rstrip (slice text 0 16)) = true ->
  py_int (slice_from (rstrip (slice text 0 16)) 3) 10 = Some length' ->
  -60 <= length' <= 0 ->
  exists info : ArInfo C,
    frombuf_info_obj (VBytes buf) arfile ENCODING = Return info
    /\ name info = []
    /\ _inline_filename info = Some true.
Proof.
  intros Hd Hlen Hread Hterm Hbsd Hint Hneg.
  unfold numeric_fields_readable in Hread.
  destruct (py_int (slice text 16 28) 10) as [m|] eqn:Em; [|discriminate].
  destruct (py_int (slice text 28 34) 10) as [u|] eqn:Eu; [|discriminate].
  destruct (py_int (slice text 34 40) 10) as [g|] eqn:Eg; [|discriminate].
  destruct (py_int (slice text 40 48) 8) as [o|] eqn:Eo; [|discriminate].
  destruct (py_int (slice text 48 58) 8) as [s|] eqn:Es; [|discriminate].
  rewrite (frombuf_info_obj_bsd buf text arfile m u g o s
             Hd Hlen Em Eu Eg Eo Es Hterm Hbsd), Hint.
  replace (Z.of_nat (length text) >=? 60 + length') with true
    by (symmetry; apply Z.geb_le; lia).
  rewrite (slice_empty text 60 (60 + length')) by lia.
  eexists. split; [reflexivity|]. split; reflexivity.
Qed.

Lemma frombuf_bsd_length_not_positive_witness :
  exists info : ArInfo pystr,
    frombuf_info_obj (VBytes Cases.negative_length_header) None ENCODING
    = Return info
    /\ name info = []
    /\ _inline_filename info = Some true.
Proof.
  set (text := List.map Byte.to_N Cases.negative_length_header).
  assert (Hd : Utf8.decode Cases.negative_length_header = Some text)
    by (vm_compute; reflexivity).
  assert (Hl : (60 <= length text)%nat) by (vm_compute; lia).
  assert (Hr : numeric_fields_readable text = true)
    by (vm_compute; reflexivity).
  assert (Ht : slice text 58 60 = TERMINATOR) by (vm_compute; reflexivity).
  assert (Hs : startswith (str "#1/") (rstrip (slice text 0 16)) = true)
    by (vm_compute; reflexivity).
  assert (Hi : py_int (slice_from (rstrip (slice text 0 16)) 3) 10
               = Some (-5)) by (vm_compute; reflexivity).
  exact (frombuf_bsd_length_not_positive
           Cases.negative_length_header text None (-5)
           Hd Hl Hr Ht Hs Hi ltac:(lia)).
Defined.

(** ** The mode and size columns of what [tobuf] returns *)

Section ModeAndSize.

Context {C : Type} `{ArFileLike C}.



End ModeAndSize.


